(** * The first-person movement controller of [FPSScene.tsx]

    A shallow embedding of the per-frame callback that [PlayerRig] registers
    with [useFrame] (src/components/fps/FPSScene.tsx, lines 108-234) and of the
    metrics store of src/stores/player.ts.

    JavaScript numbers are read as real numbers: [Math.min], [Math.max],
    [Math.sqrt] and [Math.exp] are [Rmin], [Rmax], [sqrt] and [exp], and the
    comparisons of the source are decided by [Rle_dec] and friends.  Rounding,
    infinities and NaN are outside the model. *)

From Stdlib Require Import Reals Lra Lia List Bool.
From Stdlib Require String.
Import ListNotations.
Import String.StringSyntax.
Delimit Scope string_scope with string.

Open Scope R_scope.

(** ** Comparisons of the source as booleans *)

Definition gtb (a b : R) : bool := if Rgt_dec a b then true else false.
Definition leb (a b : R) : bool := if Rle_dec a b then true else false.

(** JavaScript truthiness of a number: [0] is falsy. *)
Definition truthy (a : R) : bool := if Req_dec_T a 0 then false else true.

(** ** The part of three.js the controller calls *)

Module Three.

Record Vector3 : Type := mkVector3 { x : R; y : R; z : R }.
Record Quaternion : Type := mkQuaternion { qx : R; qy : R; qz : R; qw : R }.

(** [new Vector3()] and [new Quaternion()] *)
Definition zero : Vector3 := mkVector3 0 0 0.
Definition identity : Quaternion := mkQuaternion 0 0 0 1.

Definition set (x' y' z' : R) (_ : Vector3) : Vector3 := mkVector3 x' y' z'.
Definition setX (x' : R) (v : Vector3) : Vector3 := mkVector3 x' (y v) (z v).
Definition setY (y' : R) (v : Vector3) : Vector3 := mkVector3 (x v) y' (z v).
Definition setZ (z' : R) (v : Vector3) : Vector3 := mkVector3 (x v) (y v) z'.
Definition copy {A : Type} (src : A) (_ : A) : A := src.

Definition add (v a : Vector3) : Vector3 :=
  mkVector3 (x v + x a) (y v + y a) (z v + z a).
Definition sub (v a : Vector3) : Vector3 :=
  mkVector3 (x v - x a) (y v - y a) (z v - z a).

Definition multiplyScalar (v : Vector3) (s : R) : Vector3 :=
  mkVector3 (x v * s) (y v * s) (z v * s).
Definition divideScalar (v : Vector3) (s : R) : Vector3 :=
  multiplyScalar v (1 / s).

Definition lengthSq (v : Vector3) : R := x v * x v + y v * y v + z v * z v.
Definition length (v : Vector3) : R := sqrt (lengthSq v).

(** [divideScalar(this.length() || 1)] *)
Definition normalize (v : Vector3) : Vector3 :=
  divideScalar v (if truthy (length v) then length v else 1).

(** [this.crossVectors(this, v)] *)
Definition cross (a b : Vector3) : Vector3 :=
  mkVector3 (y a * z b - z a * y b)
            (z a * x b - x a * z b)
            (x a * y b - y a * x b).

(** [applyQuaternion]: [v + q.w * t + cross(q.xyz, t)] with
    [t = 2 * cross(q.xyz, v)] *)
Definition applyQuaternion (v : Vector3) (q : Quaternion) : Vector3 :=
  let tx := 2 * (qy q * z v - qz q * y v) in
  let ty := 2 * (qz q * x v - qx q * z v) in
  let tz := 2 * (qx q * y v - qy q * x v) in
  mkVector3 (x v + qw q * tx + qy q * tz - qz q * ty)
            (y v + qw q * ty + qz q * tx - qx q * tz)
            (z v + qw q * tz + qx q * ty - qy q * tx).

Module MathUtils.
Definition lerp (x y t : R) : R := (1 - t) * x + t * y.
Definition damp (x y lambda dt : R) : R :=
  lerp x y (1 - exp (- lambda * dt)).
End MathUtils.

End Three.

Import Three.

(** ** src/stores/player.ts *)

Module Store.

Record PlayerState : Type := mkPlayerState {
  speed : R;
  altitude : R;
  stamina : R;
  locked : bool
}.

Definition initial : PlayerState := mkPlayerState 0 0 100 false.

Definition setMetrics (speed' altitude' stamina' : R) (s : PlayerState)
  : PlayerState :=
  mkPlayerState speed' altitude' stamina' (locked s).

Definition setLocked (locked' : bool) (s : PlayerState) : PlayerState :=
  mkPlayerState (speed s) (altitude s) (stamina s) locked'.

End Store.

(** ** The imports from [@/lib/terrain]

    [import { ARENA_HALF_SIZE, clampToArena, terrainHeight }]: the module is
    not part of the sources at hand, so the controller is parametric in the
    three names it imports. *)

Class Terrain : Type := {
  ARENA_HALF_SIZE : R;
  clampToArena : R -> R -> R -> R;
  terrainHeight : R -> R -> R
}.

(** What the specification assumes of [clampToArena]: a standard clamp of
    [value] into [min, max], called with [min < max]. *)
Definition standardClamp {T : Terrain} : Prop :=
  forall value min max : R,
    min < max -> clampToArena value min max = Rmax min (Rmin max value).

(** ** The keyboard snapshot returned by [getKeys()] *)

Record Keys : Type := mkKeys {
  forward : bool;
  backward : bool;
  left : bool;
  right : bool;
  run : bool;
  jump : bool;
  crouch : bool
}.

Definition noKeys : Keys := mkKeys false false false false false false false.

(** ** The refs and scratch vectors of [PlayerRig] *)

Record Rig : Type := mkRig {
  velocity : Vector3;
  position : Vector3;
  stamina : R;
  isGrounded : bool;
  cooldown : R;
  heading : Quaternion;
  frontVector : Vector3;
  sideVector : Vector3;
  moveVector : Vector3
}.

Definition with_velocity (v : Vector3) (r : Rig) : Rig :=
  mkRig v (position r) (stamina r) (isGrounded r) (cooldown r) (heading r)
        (frontVector r) (sideVector r) (moveVector r).
Definition with_position (p : Vector3) (r : Rig) : Rig :=
  mkRig (velocity r) p (stamina r) (isGrounded r) (cooldown r) (heading r)
        (frontVector r) (sideVector r) (moveVector r).
Definition with_stamina (s : R) (r : Rig) : Rig :=
  mkRig (velocity r) (position r) s (isGrounded r) (cooldown r) (heading r)
        (frontVector r) (sideVector r) (moveVector r).
Definition with_isGrounded (g : bool) (r : Rig) : Rig :=
  mkRig (velocity r) (position r) (stamina r) g (cooldown r) (heading r)
        (frontVector r) (sideVector r) (moveVector r).
Definition with_cooldown (c : R) (r : Rig) : Rig :=
  mkRig (velocity r) (position r) (stamina r) (isGrounded r) c (heading r)
        (frontVector r) (sideVector r) (moveVector r).
Definition with_heading (q : Quaternion) (r : Rig) : Rig :=
  mkRig (velocity r) (position r) (stamina r) (isGrounded r) (cooldown r) q
        (frontVector r) (sideVector r) (moveVector r).
Definition with_frontVector (v : Vector3) (r : Rig) : Rig :=
  mkRig (velocity r) (position r) (stamina r) (isGrounded r) (cooldown r)
        (heading r) v (sideVector r) (moveVector r).
Definition with_sideVector (v : Vector3) (r : Rig) : Rig :=
  mkRig (velocity r) (position r) (stamina r) (isGrounded r) (cooldown r)
        (heading r) (frontVector r) v (moveVector r).
Definition with_moveVector (v : Vector3) (r : Rig) : Rig :=
  mkRig (velocity r) (position r) (stamina r) (isGrounded r) (cooldown r)
        (heading r) (frontVector r) (sideVector r) v.

(** Lines 116-121 and 130-132: the values the refs are created with. *)
Definition initialRig : Rig :=
  mkRig zero (mkVector3 0 0 20) 100 false 0 identity zero zero zero.

(** Lines 125-128 and 133. *)
Definition playerHeight : R := 1.72.
Definition crouchHeight : R := 1.05.
Definition walkSpeed : R := 9.5.
Definition gravity : R := 32.
Definition upVector : Vector3 := mkVector3 0 1 0.

(** ** What the callback reads and writes besides the refs *)

Record Camera : Type := mkCamera {
  quaternion : Quaternion;
  cam_position : Vector3
}.

(** The object behind [controlsRef.current]; the callback never reads its
    [isLocked]. *)
Record PointerLockControls : Type := mkControls { isLocked : bool }.

Record World : Type := mkWorld {
  rig : Rig;
  camera : Camera;
  controls : option PointerLockControls;
  store : Store.PlayerState
}.

(** A lock or unlock of the pointer: the controls flip [isLocked] and the
    [onLock] / [onUnlock] handlers of [PlayerRig] call [setLocked]. *)
Definition withLock (b : bool) (w : World) : World :=
  mkWorld (rig w) (camera w)
          (option_map (fun _ => mkControls b) (controls w))
          (Store.setLocked b (store w)).

(** The canvas is created with [camera={{ position: [0, 8, 18], ... }}]. *)
Definition initialCamera : Camera := mkCamera identity (mkVector3 0 8 18).

Definition initialWorld : World :=
  mkWorld initialRig initialCamera None Store.initial.

(** ** The callback passed to [useFrame], lines 135-225

    The body is cut into the stages the properties below speak about; each
    stage is the stretch of lines named above it and they are chained in
    source order. *)

Section Controller.

Context {T : Terrain}.

(** Line 136: [const dt = Math.min(delta, 0.05)]. *)
Definition clampDelta (delta : R) : R := Rmin delta 0.05.

(** Lines 142-145: [if (!position.current.lengthSq()) {...}]. *)
Definition resolveSpawn (r : Rig) : Rig :=
  if negb (truthy (lengthSq (position r))) then
    let terrain := terrainHeight 0 25 in
    with_position (set 0 (terrain + playerHeight) 25 (position r)) r
  else r.

(** Lines 149-151. *)
Definition lookDirections (q : Quaternion) (r : Rig) : Rig :=
  let r1 := with_heading (copy q (heading r)) r in
  let r2 :=
    with_frontVector
      (normalize
         (setY 0 (applyQuaternion (set 0 0 (-1) (frontVector r1)) (heading r1))))
      r1 in
  with_sideVector
    (normalize (cross (copy upVector (sideVector r2)) (frontVector r2))) r2.

(** Lines 153-157. *)
Definition sumMoves (keys : Keys) (r : Rig) : Rig :=
  let m0 := set 0 0 0 (moveVector r) in
  let m1 := if forward keys then add m0 (frontVector r) else m0 in
  let m2 := if backward keys then sub m1 (frontVector r) else m1 in
  let m3 := if left keys then sub m2 (sideVector r) else m2 in
  let m4 := if right keys then add m3 (sideVector r) else m3 in
  with_moveVector m4 r.

(** Line 159, read on the rig that [sumMoves] leaves. *)
Definition isMoving (r : Rig) : bool := gtb (lengthSq (moveVector r)) 0.001.

(** Lines 160-162. *)
Definition normalizeMove (r : Rig) : Rig :=
  if isMoving r then with_moveVector (normalize (moveVector r)) r else r.

(** Lines 164-167. *)
Definition crouchFactor (keys : Keys) : R := if crouch keys then 0.45 else 1.
Definition canSprint (keys : Keys) (r : Rig) : bool :=
  run keys && gtb (stamina r) 5 && negb (crouch keys).
Definition sprintFactor (keys : Keys) (r : Rig) : R :=
  if canSprint keys r then 1.75 else 1.
Definition targetSpeed (keys : Keys) (r : Rig) : R :=
  walkSpeed * crouchFactor keys * sprintFactor keys r.

(** Lines 169-177. *)
Definition dampHorizontal (moving : bool) (speed dt : R) (r : Rig) : Rig :=
  if moving then
    let desiredX := x (moveVector r) * speed in
    let desiredZ := z (moveVector r) * speed in
    let v1 := setX (MathUtils.damp (x (velocity r)) desiredX 8 dt) (velocity r) in
    let v2 := setZ (MathUtils.damp (z v1) desiredZ 8 dt) v1 in
    with_velocity v2 r
  else
    let v1 := setX (MathUtils.damp (x (velocity r)) 0 5.5 dt) (velocity r) in
    let v2 := setZ (MathUtils.damp (z v1) 0 5.5 dt) v1 in
    with_velocity v2 r.

(** Lines 179-183. *)
Definition updateStamina (draining : bool) (dt : R) (r : Rig) : Rig :=
  if draining then with_stamina (Rmax 0 (stamina r - 32 * dt)) r
  else with_stamina (Rmin 100 (stamina r + 20 * dt)) r.

(** Lines 185-187. *)
Definition tickCooldown (dt : R) (r : Rig) : Rig :=
  if gtb (cooldown r) 0 then with_cooldown (cooldown r - dt) r else r.

(** Lines 189-193. *)
Definition jumpFires (keys : Keys) (r : Rig) : bool :=
  jump keys && isGrounded r && leb (cooldown r) 0.
Definition tryJump (keys : Keys) (r : Rig) : Rig :=
  if jumpFires keys r then
    with_cooldown 0.35
      (with_isGrounded false (with_velocity (setY 12.5 (velocity r)) r))
  else r.

(** Line 195. *)
Definition applyGravity (dt : R) (r : Rig) : Rig :=
  with_velocity (setY (y (velocity r) - gravity * dt) (velocity r)) r.

(** Lines 197-199. *)
Definition integrate (dt : R) (r : Rig) : Rig :=
  let p1 := setX (x (position r) + x (velocity r) * dt) (position r) in
  let p2 := setZ (z p1 + z (velocity r) * dt) p1 in
  let p3 := setY (y p2 + y (velocity r) * dt) p2 in
  with_position p3 r.

(** Lines 201-202. *)
Definition clampPosition (r : Rig) : Rig :=
  let p1 :=
    setX (clampToArena (x (position r))
                       (- ARENA_HALF_SIZE + 3) (ARENA_HALF_SIZE - 3))
         (position r) in
  let p2 :=
    setZ (clampToArena (z p1) (- ARENA_HALF_SIZE + 3) (ARENA_HALF_SIZE - 3))
         p1 in
  with_position p2 r.

(** Lines 204-207. *)
Definition terrainHeightAtPoint (r : Rig) : R :=
  terrainHeight (x (position r)) (z (position r)).
Definition desiredHeight (keys : Keys) (r : Rig) : R :=
  if crouch keys then terrainHeightAtPoint r + crouchHeight
  else terrainHeightAtPoint r + playerHeight.

(** Lines 209-215. *)
Definition resolveGround (keys : Keys) (dt : R) (r : Rig) : Rig :=
  if leb (y (position r)) (desiredHeight keys r) then
    with_isGrounded true
      (with_velocity (setY 0 (velocity r))
         (with_position
            (setY (MathUtils.damp (y (position r)) (desiredHeight keys r) 18 dt)
                  (position r))
            r))
  else with_isGrounded false r.

(** The rig at successive points of one run of the body, for the camera
    orientation [q], the clamped step [dt] and the keyboard snapshot. *)

(** After line 157. *)
Definition summed (q : Quaternion) (keys : Keys) (r : Rig) : Rig :=
  sumMoves keys (lookDirections q (resolveSpawn r)).

(** After line 162. *)
Definition steered (q : Quaternion) (keys : Keys) (r : Rig) : Rig :=
  normalizeMove (summed q keys r).

(** After line 177. *)
Definition damped (q : Quaternion) (dt : R) (keys : Keys) (r : Rig) : Rig :=
  let r1 := steered q keys r in
  dampHorizontal (isMoving (summed q keys r)) (targetSpeed keys r1) dt r1.

(** After line 187. *)
Definition ticked (q : Quaternion) (dt : R) (keys : Keys) (r : Rig) : Rig :=
  let r1 := steered q keys r in
  tickCooldown dt
    (updateStamina (canSprint keys r1 && isMoving (summed q keys r)) dt
       (damped q dt keys r)).

(** After line 193. *)
Definition jumped (q : Quaternion) (dt : R) (keys : Keys) (r : Rig) : Rig :=
  tryJump keys (ticked q dt keys r).

(** After line 195. *)
Definition afterGravity (q : Quaternion) (dt : R) (keys : Keys) (r : Rig)
  : Rig :=
  applyGravity dt (jumped q dt keys r).

(** After line 199. *)
Definition integrated (q : Quaternion) (dt : R) (keys : Keys) (r : Rig)
  : Rig :=
  integrate dt (afterGravity q dt keys r).

(** After line 202. *)
Definition clamped (q : Quaternion) (dt : R) (keys : Keys) (r : Rig) : Rig :=
  clampPosition (integrated q dt keys r).

(** After line 215. *)
Definition simulate (q : Quaternion) (dt : R) (keys : Keys) (r : Rig) : Rig :=
  resolveGround keys dt (clamped q dt keys r).

(** Lines 221-223. *)
Definition horizontalSpeed (r : Rig) : R :=
  sqrt (x (velocity r) * x (velocity r) + z (velocity r) * z (velocity r)).

(** The whole callback.  [controls.camera] is the camera of [useThree], so
    lines 218 and 219 write the same position twice. *)
Definition useFrame (w : World) (delta : R) (keys : Keys) : World :=
  let dt := clampDelta delta in
  match controls w with
  | None => w
  | Some ctl =>
      let r := simulate (quaternion (camera w)) dt keys (rig w) in
      let ground :=
        terrainHeightAtPoint (clamped (quaternion (camera w)) dt keys (rig w)) in
      let pointerCamera :=
        mkCamera (quaternion (camera w))
                 (copy (position r) (cam_position (camera w))) in
      let camera' :=
        mkCamera (quaternion pointerCamera)
                 (copy (position r) (cam_position pointerCamera)) in
      mkWorld r camera' (Some ctl)
              (Store.setMetrics (horizontalSpeed r)
                                (y (position r) - ground)
                                (stamina r)
                                (store w))
  end.

(** *** Between two frames

    What the surroundings may change before the next callback:
    [controlsRef.current] (mounting), the camera orientation (pointer
    look) and the [locked] flag of the store ([onLock] / [onUnlock]). *)

Record Frame : Type := mkFrame {
  f_controls : option PointerLockControls;
  f_look : Quaternion;
  f_delta : R;
  f_keys : Keys
}.

Definition arrive (f : Frame) (w : World) : World :=
  mkWorld (rig w)
          (mkCamera (f_look f) (cam_position (camera w)))
          (f_controls f)
          (match f_controls f with
           | Some ctl => Store.setLocked (isLocked ctl) (store w)
           | None => store w
           end).

Definition frameStep (f : Frame) (w : World) : World :=
  useFrame (arrive f w) (f_delta f) (f_keys f).

(** The worlds after each frame of a session, oldest first. *)
Fixpoint trace (fs : list Frame) (w : World) : list World :=
  match fs with
  | [] => []
  | f :: fs' => let w' := frameStep f w in w' :: trace fs' w'
  end.

Definition runFrames (fs : list Frame) (w : World) : World :=
  fold_left (fun w f => frameStep f w) fs w.

End Controller.

(** The look direction of line 150 after [setY(0)], before [normalize()]. *)
Definition flatForward (q : Quaternion) : Vector3 :=
  setY 0 (applyQuaternion (mkVector3 0 0 (-1)) q).

(** ** Concrete surroundings used by the examples *)

(** A level height field; the arena reaches 60 units from the origin and the
    clamp is [Math.max(min, Math.min(max, value))]. *)
Definition flatTerrain : Terrain :=
  {| ARENA_HALF_SIZE := 60;
     clampToArena := fun value min max => Rmax min (Rmin max value);
     terrainHeight := fun _ _ => 0 |}.

Definition unlockedControls : PointerLockControls := mkControls false.
Definition lockedControls : PointerLockControls := mkControls true.

(** The controls are mounted but the pointer has not been captured. *)
Definition mountedWorld : World :=
  mkWorld initialRig initialCamera (Some unlockedControls) Store.initial.

Definition jumpKey : Keys := mkKeys false false false false false true false.
Definition forwardKey : Keys := mkKeys true false false false false false false.

Definition idleFrame (delta : R) : Frame :=
  mkFrame (Some lockedControls) identity delta noKeys.
Definition jumpFrame (delta : R) : Frame :=
  mkFrame (Some lockedControls) identity delta jumpKey.

(** A world that agrees with [mountedWorld] on the player's kinematic state
    and on the camera orientation, and on nothing else. *)
Definition scribbledWorld : World :=
  mkWorld (mkRig zero (mkVector3 0 0 20) 100 false 0
                 (mkQuaternion 1 0 0 0) (mkVector3 1 2 3) (mkVector3 4 5 6)
                 (mkVector3 7 8 9))
          (mkCamera identity zero)
          (Some lockedControls)
          (Store.mkPlayerState 1 2 3 true).

(** Mount and settle for one frame of 16 ms, then press jump. *)
Definition settledWorld : World :=
  frameStep (T := flatTerrain) (idleFrame 0.016) initialWorld.
Definition eagerJump : World :=
  frameStep (T := flatTerrain) (jumpFrame 0.016) settledWorld.

(** Mount and settle, jump, then idle for nine frames of 40 ms. *)
Definition coolingSession : list Frame :=
  idleFrame 0.05 :: jumpFrame 0.05 :: repeat (idleFrame 0.04) 9.

(** ** The rest of the session: jumps and skipped frames *)

(** Whether the jump branch (lines 189-193) is taken in the frame [f] that
    arrives at the world [w]. *)
Definition frameJumps {T : Terrain} (f : Frame) (w : World) : bool :=
  match f_controls f with
  | None => false
  | Some _ =>
      jumpFires (f_keys f)
        (ticked (f_look f) (clampDelta (f_delta f)) (f_keys f) (rig w))
  end.

(** The jump branch, frame by frame along a session. *)
Fixpoint jumpLog {T : Terrain} (fs : list Frame) (w : World) : list bool :=
  match fs with
  | [] => []
  | f :: fs' => frameJumps f w :: jumpLog fs' (frameStep f w)
  end.

(** Whether [controlsRef.current] is set when the frame arrives. *)
Definition mountedFrame (f : Frame) : bool :=
  match f_controls f with
  | None => false
  | Some _ => true
  end.

(** ** [HUD], lines 437-496 *)

(** Line 464: the width of the stamina bar, in percent. *)
Definition staminaBarWidth (s : Store.PlayerState) : R :=
  Rmax 0 (Rmin (Store.stamina s) 100).

(** ** [Terrain], lines 238-252 *)

(** The [position] attribute of the plane: one [x, y, z] item per vertex. *)
Module BufferAttribute.

Definition t : Type := list Vector3.

Definition count (a : t) : nat := List.length a.
Definition getX (i : nat) (a : t) : R := x (nth i a zero).
Definition getY (i : nat) (a : t) : R := y (nth i a zero).

(** A write past the end of the underlying array is dropped. *)
Fixpoint setZ (i : nat) (h : R) (a : t) : t :=
  match a, i with
  | [], _ => []
  | v :: a', O => Three.setZ h v :: a'
  | v :: a', S i' => v :: setZ i' h a'
  end.

End BufferAttribute.

Section Scenery.

Context {T : Terrain}.

(** Lines 242-247, with [n] iterations left and the loop counter at [i]. *)
Fixpoint displaceLoop (n i : nat) (positions : BufferAttribute.t)
  : BufferAttribute.t :=
  match n with
  | O => positions
  | S n' =>
      let x := BufferAttribute.getX i positions in
      let z := - BufferAttribute.getY i positions in
      let height := terrainHeight x z in
      displaceLoop n' (S i) (BufferAttribute.setZ i height positions)
  end.

Definition displaceVertices (positions : BufferAttribute.t)
  : BufferAttribute.t :=
  displaceLoop (BufferAttribute.count positions) 0 positions.

(** One vertex with its [z] replaced by the terrain height at [(x, -y)]:
    what lines 243-246 ask for, to compare the loop with. *)
Definition displacedVertex (v : Vector3) : Vector3 :=
  mkVector3 (x v) (y v) (terrainHeight (x v) (- y v)).

(** *** [Structures], lines 279-304 *)

Record StructureNode : Type := mkStructureNode {
  s_position : R * R * R;
  s_size : R * R * R;
  s_rotation : R * R * R;
  s_color : String.string
}.

(** [random k] is what the [k]-th call of [Math.random()] returns. *)
Variable random : nat -> R.

(** The body of the loop for counter [i], when [k] random numbers have been
    drawn before; it draws five, in source order. *)
Definition structureNode (i k : nat) : StructureNode :=
  let angle := INR i / 18 * PI * 2 + sin (INR i) * 0.35 in
  let radius := 36 + INR (i mod 5) * 6 + random k * 4 in
  let x := cos angle * radius in
  let z := sin angle * radius in
  let height := 6 + (INR (i mod 4) + random (k + 1)) * 3 in
  let size := (4 + random (k + 2) * 1.8, height, 4 + random (k + 3) * 1.8) in
  let rotation := (0, random (k + 4) * PI * 2, 0) in
  let altitude := terrainHeight x z + height / 2 in
  mkStructureNode (x, altitude, z) size rotation
    (if Nat.eqb (i mod 3) 0 then "#232936" else "#1b222c")%string.

Fixpoint structuresLoop (n i k : nat) (nodes : list StructureNode)
  : list StructureNode :=
  match n with
  | O => nodes
  | S n' => structuresLoop n' (S i) (k + 5) (nodes ++ [structureNode i k])
  end.

Definition structures : list StructureNode := structuresLoop 18 0 0 [].

(** *** [LandingPad], lines 326-327 *)

Definition padRadius : R := 12.
Definition padPosition : R * R * R := (8, terrainHeight 8 (-12) + 0.2, -12).

(** *** [GlowingRidge], lines 352-381 *)

Definition ridgePoint (i : nat) : R * R * R :=
  let angle := INR i / 42 * PI * 2 in
  let radius := 60 + sin (INR i * 0.6) * 12 in
  let x := cos angle * radius in
  let z := sin angle * radius in
  let y := terrainHeight x z + 0.4 in
  (x, y, z).

Fixpoint ridgeLoop (n i : nat) (nodes : list (R * R * R)) : list (R * R * R) :=
  match n with
  | O => nodes
  | S n' => ridgeLoop n' (S i) (nodes ++ [ridgePoint i])
  end.

Definition ridgePoints : list (R * R * R) := ridgeLoop 42 0 [].

(** Line 369: the radius of the sphere drawn at point [idx]. *)
Definition ridgeSphereRadius (idx : nat) : R := 0.65 + sin (INR idx) * 0.12.

(** Lines 371-372. *)
Definition ridgeEmissive (idx : nat) : String.string :=
  (if Nat.eqb (idx mod 2) 0 then "#36f0ff" else "#7bffcf")%string.
Definition ridgeEmissiveIntensity (idx : nat) : R :=
  if Nat.eqb (idx mod 2) 0 then 1.9 else 1.2.

End Scenery.

(** ** More concrete surroundings *)

(** Standing at eye height on the level terrain, grounded, free to jump. *)
Definition standingWorld : World :=
  mkWorld (mkRig zero (mkVector3 0 1.72 20) 100 true 0 identity zero zero zero)
          initialCamera (Some lockedControls) Store.initial.

Definition bothWaysKeys : Keys := mkKeys true true true true true false false.
Definition rightKey : Keys := mkKeys false false false true false false false.

(** A generator that always returns one half. *)
Definition halfRandom : nat -> R := fun _ => 0.5.

(** * Properties *)

(** ** Arithmetic of the source's comparisons *)

Lemma gtb_true (a b : R) : gtb a b = true <-> a > b.
Proof. unfold gtb. destruct (Rgt_dec a b); split; intros; congruence || lra. Qed.

Lemma gtb_false (a b : R) : gtb a b = false <-> a <= b.
Proof. unfold gtb. destruct (Rgt_dec a b); split; intros; congruence || lra. Qed.

Lemma leb_true (a b : R) : leb a b = true <-> a <= b.
Proof. unfold leb. destruct (Rle_dec a b); split; intros; congruence || lra. Qed.

Lemma leb_false (a b : R) : leb a b = false <-> a > b.
Proof. unfold leb. destruct (Rle_dec a b); split; intros; congruence || lra. Qed.

Lemma truthy_false (a : R) : truthy a = false <-> a = 0.
Proof.
  unfold truthy. destruct (Req_dec_T a 0); split; intros; congruence.
Qed.

Lemma truthy_true (a : R) : truthy a = true <-> a <> 0.
Proof.
  unfold truthy. destruct (Req_dec_T a 0); split; intros; congruence.
Qed.

Lemma clampDelta_le (delta : R) : clampDelta delta <= 0.05.
Proof. unfold clampDelta. apply Rmin_r. Qed.

Lemma clampDelta_nonneg (delta : R) : 0 <= delta -> 0 <= clampDelta delta.
Proof. intros H. unfold clampDelta. apply Rmin_glb; lra. Qed.

Lemma clampDelta_small (delta : R) : delta <= 0.05 -> clampDelta delta = delta.
Proof. intros H. unfold clampDelta. apply Rmin_left; exact H. Qed.

Lemma clampDelta_large (delta : R) : 0.05 <= delta -> clampDelta delta = 0.05.
Proof. intros H. unfold clampDelta. apply Rmin_right; exact H. Qed.

(** ** Which refs each stage touches *)

Ltac break_if :=
  match goal with
  | |- context [if ?b then _ else _] => destruct b
  end.

Ltac stage :=
  unfold simulate, clamped, integrated, afterGravity, jumped, ticked, damped,
    steered, summed, resolveGround, clampPosition, integrate, applyGravity,
    tryJump, tickCooldown, updateStamina, dampHorizontal, normalizeMove,
    sumMoves, lookDirections, resolveSpawn;
  cbv zeta.

(** Each stage leaves the other refs alone; the equations are collected in
    the rewrite database [footprint]. *)

Create Rewrite HintDb footprint.

Section StageFootprints.

Context {T : Terrain}.
Variables (q : Quaternion) (dt s : R) (b : bool) (keys : Keys) (r : Rig).

Local Ltac untouched := stage; repeat break_if; reflexivity.

Lemma velocity_resolveSpawn : velocity (resolveSpawn r) = velocity r.
Proof. untouched. Qed.

Lemma stamina_resolveSpawn : stamina (resolveSpawn r) = stamina r.
Proof. untouched. Qed.

Lemma isGrounded_resolveSpawn : isGrounded (resolveSpawn r) = isGrounded r.
Proof. untouched. Qed.

Lemma cooldown_resolveSpawn : cooldown (resolveSpawn r) = cooldown r.
Proof. untouched. Qed.

Lemma velocity_lookDirections : velocity (lookDirections q r) = velocity r.
Proof. untouched. Qed.

Lemma position_lookDirections : position (lookDirections q r) = position r.
Proof. untouched. Qed.

Lemma stamina_lookDirections : stamina (lookDirections q r) = stamina r.
Proof. untouched. Qed.

Lemma isGrounded_lookDirections : isGrounded (lookDirections q r) = isGrounded r.
Proof. untouched. Qed.

Lemma cooldown_lookDirections : cooldown (lookDirections q r) = cooldown r.
Proof. untouched. Qed.

Lemma velocity_sumMoves : velocity (sumMoves keys r) = velocity r.
Proof. untouched. Qed.

Lemma position_sumMoves : position (sumMoves keys r) = position r.
Proof. untouched. Qed.

Lemma stamina_sumMoves : stamina (sumMoves keys r) = stamina r.
Proof. untouched. Qed.

Lemma isGrounded_sumMoves : isGrounded (sumMoves keys r) = isGrounded r.
Proof. untouched. Qed.

Lemma cooldown_sumMoves : cooldown (sumMoves keys r) = cooldown r.
Proof. untouched. Qed.

Lemma frontVector_sumMoves : frontVector (sumMoves keys r) = frontVector r.
Proof. untouched. Qed.

Lemma sideVector_sumMoves : sideVector (sumMoves keys r) = sideVector r.
Proof. untouched. Qed.

Lemma velocity_normalizeMove : velocity (normalizeMove r) = velocity r.
Proof. untouched. Qed.

Lemma position_normalizeMove : position (normalizeMove r) = position r.
Proof. untouched. Qed.

Lemma stamina_normalizeMove : stamina (normalizeMove r) = stamina r.
Proof. untouched. Qed.

Lemma isGrounded_normalizeMove : isGrounded (normalizeMove r) = isGrounded r.
Proof. untouched. Qed.

Lemma cooldown_normalizeMove : cooldown (normalizeMove r) = cooldown r.
Proof. untouched. Qed.

Lemma frontVector_normalizeMove : frontVector (normalizeMove r) = frontVector r.
Proof. untouched. Qed.

Lemma sideVector_normalizeMove : sideVector (normalizeMove r) = sideVector r.
Proof. untouched. Qed.

Lemma position_dampHorizontal : position (dampHorizontal b s dt r) = position r.
Proof. untouched. Qed.

Lemma stamina_dampHorizontal : stamina (dampHorizontal b s dt r) = stamina r.
Proof. untouched. Qed.

Lemma isGrounded_dampHorizontal : isGrounded (dampHorizontal b s dt r) = isGrounded r.
Proof. untouched. Qed.

Lemma cooldown_dampHorizontal : cooldown (dampHorizontal b s dt r) = cooldown r.
Proof. untouched. Qed.

Lemma moveVector_dampHorizontal : moveVector (dampHorizontal b s dt r) = moveVector r.
Proof. untouched. Qed.

Lemma velocity_y_dampHorizontal : y (velocity (dampHorizontal b s dt r)) = y (velocity r).
Proof. untouched. Qed.

Lemma velocity_updateStamina : velocity (updateStamina b dt r) = velocity r.
Proof. untouched. Qed.

Lemma position_updateStamina : position (updateStamina b dt r) = position r.
Proof. untouched. Qed.

Lemma isGrounded_updateStamina : isGrounded (updateStamina b dt r) = isGrounded r.
Proof. untouched. Qed.

Lemma cooldown_updateStamina : cooldown (updateStamina b dt r) = cooldown r.
Proof. untouched. Qed.

Lemma velocity_tickCooldown : velocity (tickCooldown dt r) = velocity r.
Proof. untouched. Qed.

Lemma position_tickCooldown : position (tickCooldown dt r) = position r.
Proof. untouched. Qed.

Lemma stamina_tickCooldown : stamina (tickCooldown dt r) = stamina r.
Proof. untouched. Qed.

Lemma isGrounded_tickCooldown : isGrounded (tickCooldown dt r) = isGrounded r.
Proof. untouched. Qed.

Lemma position_tryJump : position (tryJump keys r) = position r.
Proof. untouched. Qed.

Lemma stamina_tryJump : stamina (tryJump keys r) = stamina r.
Proof. untouched. Qed.

Lemma velocity_x_tryJump : x (velocity (tryJump keys r)) = x (velocity r).
Proof. untouched. Qed.

Lemma velocity_z_tryJump : z (velocity (tryJump keys r)) = z (velocity r).
Proof. untouched. Qed.

Lemma position_applyGravity : position (applyGravity dt r) = position r.
Proof. untouched. Qed.

Lemma stamina_applyGravity : stamina (applyGravity dt r) = stamina r.
Proof. untouched. Qed.

Lemma isGrounded_applyGravity : isGrounded (applyGravity dt r) = isGrounded r.
Proof. untouched. Qed.

Lemma cooldown_applyGravity : cooldown (applyGravity dt r) = cooldown r.
Proof. untouched. Qed.

Lemma velocity_x_applyGravity : x (velocity (applyGravity dt r)) = x (velocity r).
Proof. untouched. Qed.

Lemma velocity_z_applyGravity : z (velocity (applyGravity dt r)) = z (velocity r).
Proof. untouched. Qed.

Lemma velocity_integrate : velocity (integrate dt r) = velocity r.
Proof. untouched. Qed.

Lemma stamina_integrate : stamina (integrate dt r) = stamina r.
Proof. untouched. Qed.

Lemma isGrounded_integrate : isGrounded (integrate dt r) = isGrounded r.
Proof. untouched. Qed.

Lemma cooldown_integrate : cooldown (integrate dt r) = cooldown r.
Proof. untouched. Qed.

Lemma velocity_clampPosition : velocity (clampPosition r) = velocity r.
Proof. untouched. Qed.

Lemma stamina_clampPosition : stamina (clampPosition r) = stamina r.
Proof. untouched. Qed.

Lemma isGrounded_clampPosition : isGrounded (clampPosition r) = isGrounded r.
Proof. untouched. Qed.

Lemma cooldown_clampPosition : cooldown (clampPosition r) = cooldown r.
Proof. untouched. Qed.

Lemma position_y_clampPosition : y (position (clampPosition r)) = y (position r).
Proof. untouched. Qed.

Lemma stamina_resolveGround : stamina (resolveGround keys dt r) = stamina r.
Proof. untouched. Qed.

Lemma cooldown_resolveGround : cooldown (resolveGround keys dt r) = cooldown r.
Proof. untouched. Qed.

Lemma velocity_x_resolveGround : x (velocity (resolveGround keys dt r)) = x (velocity r).
Proof. untouched. Qed.

Lemma velocity_z_resolveGround : z (velocity (resolveGround keys dt r)) = z (velocity r).
Proof. untouched. Qed.

Lemma position_x_resolveGround : x (position (resolveGround keys dt r)) = x (position r).
Proof. untouched. Qed.

Lemma position_z_resolveGround : z (position (resolveGround keys dt r)) = z (position r).
Proof. untouched. Qed.

End StageFootprints.

#[global] Hint Rewrite @velocity_resolveSpawn @stamina_resolveSpawn
  @isGrounded_resolveSpawn @cooldown_resolveSpawn @velocity_lookDirections
  @position_lookDirections @stamina_lookDirections @isGrounded_lookDirections
  @cooldown_lookDirections @velocity_sumMoves @position_sumMoves
  @stamina_sumMoves @isGrounded_sumMoves @cooldown_sumMoves
  @frontVector_sumMoves @sideVector_sumMoves @velocity_normalizeMove
  @position_normalizeMove @stamina_normalizeMove @isGrounded_normalizeMove
  @cooldown_normalizeMove @frontVector_normalizeMove @sideVector_normalizeMove
  @position_dampHorizontal @stamina_dampHorizontal @isGrounded_dampHorizontal
  @cooldown_dampHorizontal @moveVector_dampHorizontal
  @velocity_y_dampHorizontal @velocity_updateStamina @position_updateStamina
  @isGrounded_updateStamina @cooldown_updateStamina @velocity_tickCooldown
  @position_tickCooldown @stamina_tickCooldown @isGrounded_tickCooldown
  @position_tryJump @stamina_tryJump @velocity_x_tryJump @velocity_z_tryJump
  @position_applyGravity @stamina_applyGravity @isGrounded_applyGravity
  @cooldown_applyGravity @velocity_x_applyGravity @velocity_z_applyGravity
  @velocity_integrate @stamina_integrate @isGrounded_integrate
  @cooldown_integrate @velocity_clampPosition @stamina_clampPosition
  @isGrounded_clampPosition @cooldown_clampPosition @position_y_clampPosition
  @stamina_resolveGround @cooldown_resolveGround @velocity_x_resolveGround
  @velocity_z_resolveGround @position_x_resolveGround
  @position_z_resolveGround : footprint.

(** ** Stamina *)

Section Stamina.

Context {T : Terrain}.

Lemma canSprint_steered (q : Quaternion) (keys : Keys) (r : Rig) :
  canSprint keys (steered q keys r) = canSprint keys r.
Proof.
  unfold canSprint, steered, summed. now autorewrite with footprint.
Qed.

(** Lines 179-183 seen from outside the callback. *)
Lemma stamina_simulate (q : Quaternion) (dt : R) (keys : Keys) (r : Rig) :
  stamina (simulate q dt keys r) =
    if canSprint keys r && isMoving (summed q keys r)
    then Rmax 0 (stamina r - 32 * dt)
    else Rmin 100 (stamina r + 20 * dt).
Proof.
  unfold simulate, clamped, integrated, afterGravity, jumped, ticked.
  autorewrite with footprint. rewrite canSprint_steered.
  unfold updateStamina, damped.
  destruct (canSprint keys r && isMoving (summed q keys r)); cbn [stamina];
    unfold steered, summed; now autorewrite with footprint.
Qed.

Lemma stamina_simulate_range (q : Quaternion) (dt : R) (keys : Keys) (r : Rig) :
  0 <= dt -> 0 <= stamina r <= 100 ->
  0 <= stamina (simulate q dt keys r) <= 100.
Proof.
  intros Hdt [Hlo Hhi]. rewrite stamina_simulate.
  destruct (canSprint keys r && isMoving (summed q keys r)).
  - split; [apply Rmax_l|]. apply Rmax_lub; lra.
  - split; [|apply Rmin_l]. apply Rmin_glb; lra.
Qed.

Lemma stamina_frameStep_range (f : Frame) (w : World) :
  0 <= f_delta f -> 0 <= stamina (rig w) <= 100 ->
  0 <= stamina (rig (frameStep f w)) <= 100.
Proof.
  intros Hd Hs. unfold frameStep, useFrame, arrive. cbn [controls rig camera].
  destruct (f_controls f); cbn [rig]; [|exact Hs].
  apply stamina_simulate_range; [apply clampDelta_nonneg|]; assumption.
Qed.

Lemma stamina_trace_range (fs : list Frame) :
  Forall (fun f => 0 <= f_delta f) fs ->
  forall w, 0 <= stamina (rig w) <= 100 ->
  Forall (fun w' => 0 <= stamina (rig w') <= 100) (trace fs w).
Proof.
  induction 1 as [|f fs Hf _ IH]; intros w Hw; cbn [trace]; constructor.
  - now apply stamina_frameStep_range.
  - apply IH. now apply stamina_frameStep_range.
Qed.

(** C3: starting from the refs as [PlayerRig] creates them (stamina 100),
    after every frame of every session whose elapsed times are not
    negative, stamina lies in [0, 100].  A frame that runs either drains
    32 units per second of the clamped step, floored at 0 (sprinting and
    moving), or regenerates 20 units per second, capped at 100. *)
Theorem stamina_stays_in_range (fs : list Frame) :
  Forall (fun f => 0 <= f_delta f) fs ->
  Forall (fun w => 0 <= stamina (rig w) <= 100) (trace fs initialWorld)
  /\ (forall (f : Frame) (w : World),
        f_controls f <> None ->
        let dt := clampDelta (f_delta f) in
        stamina (rig (frameStep f w)) =
          if canSprint (f_keys f) (rig w)
             && isMoving (summed (f_look f) (f_keys f) (rig w))
          then Rmax 0 (stamina (rig w) - 32 * dt)
          else Rmin 100 (stamina (rig w) + 20 * dt)).
Proof.
  intros Hfs. split.
  - apply stamina_trace_range; [exact Hfs|]. cbn. lra.
  - intros f w Hc. cbv zeta.
    unfold frameStep, useFrame, arrive. cbn [controls rig camera quaternion].
    destruct (f_controls f); [|contradiction].
    cbn [rig]. apply stamina_simulate.
Qed.

End Stamina.

(** ** The vertical part of one frame: cooldown, jump, gravity, ground *)

Section Vertical.

Context {T : Terrain}.
Variables (q : Quaternion) (dt : R) (keys : Keys) (r : Rig).

Lemma cooldown_damped : cooldown (damped q dt keys r) = cooldown r.
Proof. unfold damped, steered, summed. now autorewrite with footprint. Qed.

Lemma isGrounded_damped : isGrounded (damped q dt keys r) = isGrounded r.
Proof. unfold damped, steered, summed. now autorewrite with footprint. Qed.

Lemma velocity_y_damped : y (velocity (damped q dt keys r)) = y (velocity r).
Proof. unfold damped, steered, summed. now autorewrite with footprint. Qed.

Lemma position_damped : position (damped q dt keys r) = position (resolveSpawn r).
Proof. unfold damped, steered, summed. now autorewrite with footprint. Qed.

Lemma cooldown_ticked :
  cooldown (ticked q dt keys r) =
    if gtb (cooldown r) 0 then cooldown r - dt else cooldown r.
Proof.
  unfold ticked, tickCooldown. autorewrite with footprint.
  rewrite cooldown_damped.
  destruct (gtb (cooldown r) 0); [reflexivity|].
  autorewrite with footprint. apply cooldown_damped.
Qed.

Lemma isGrounded_ticked : isGrounded (ticked q dt keys r) = isGrounded r.
Proof. unfold ticked. autorewrite with footprint. apply isGrounded_damped. Qed.

Lemma velocity_y_ticked : y (velocity (ticked q dt keys r)) = y (velocity r).
Proof. unfold ticked. autorewrite with footprint. apply velocity_y_damped. Qed.

Lemma velocity_x_ticked :
  x (velocity (ticked q dt keys r)) = x (velocity (damped q dt keys r)).
Proof. unfold ticked. now autorewrite with footprint. Qed.

Lemma velocity_z_ticked :
  z (velocity (ticked q dt keys r)) = z (velocity (damped q dt keys r)).
Proof. unfold ticked. now autorewrite with footprint. Qed.

Lemma position_ticked : position (ticked q dt keys r) = position (resolveSpawn r).
Proof. unfold ticked. autorewrite with footprint. apply position_damped. Qed.

Lemma jumpFires_ticked :
  jumpFires keys (ticked q dt keys r) =
    jump keys && isGrounded r
    && leb (if gtb (cooldown r) 0 then cooldown r - dt else cooldown r) 0.
Proof.
  unfold jumpFires. now rewrite isGrounded_ticked, cooldown_ticked.
Qed.

Lemma cooldown_simulate :
  cooldown (simulate q dt keys r) =
    if jumpFires keys (ticked q dt keys r) then 0.35
    else cooldown (ticked q dt keys r).
Proof.
  unfold simulate, clamped, integrated, afterGravity, jumped.
  autorewrite with footprint. unfold tryJump.
  now destruct (jumpFires keys (ticked q dt keys r)).
Qed.

Lemma velocity_y_afterGravity :
  y (velocity (afterGravity q dt keys r)) =
    (if jumpFires keys (ticked q dt keys r) then 12.5 else y (velocity r))
    - gravity * dt.
Proof.
  unfold afterGravity, applyGravity, jumped, tryJump.
  destruct (jumpFires keys (ticked q dt keys r)); cbn [velocity y setY];
    [reflexivity | now rewrite velocity_y_ticked].
Qed.

Lemma position_y_clamped :
  y (position (clamped q dt keys r)) =
    y (position (resolveSpawn r)) + y (velocity (afterGravity q dt keys r)) * dt.
Proof.
  unfold clamped, integrated. autorewrite with footprint.
  unfold integrate. cbn [position with_position y setX setY setZ].
  unfold afterGravity at 1, jumped. autorewrite with footprint.
  now rewrite position_ticked.
Qed.

Lemma isGrounded_simulate :
  isGrounded (simulate q dt keys r) =
    leb (y (position (clamped q dt keys r)))
        (desiredHeight keys (clamped q dt keys r)).
Proof.
  unfold simulate, resolveGround.
  now destruct (leb (y (position (clamped q dt keys r)))
                    (desiredHeight keys (clamped q dt keys r))).
Qed.

Lemma velocity_y_simulate :
  y (velocity (simulate q dt keys r)) =
    if isGrounded (simulate q dt keys r) then 0
    else y (velocity (afterGravity q dt keys r)).
Proof.
  rewrite isGrounded_simulate. unfold simulate, resolveGround.
  destruct (leb (y (position (clamped q dt keys r)))
                (desiredHeight keys (clamped q dt keys r)));
    cbn [velocity y setY with_isGrounded with_velocity]; [reflexivity|].
  unfold clamped, integrated. now autorewrite with footprint.
Qed.

End Vertical.

(** ** The horizontal part of one frame: damping, integration, clamp *)

Section Horizontal.

Context {T : Terrain}.
Variables (q : Quaternion) (dt : R) (keys : Keys) (r : Rig).

Lemma targetSpeed_steered :
  targetSpeed keys (steered q keys r) = targetSpeed keys r.
Proof.
  unfold targetSpeed, sprintFactor, canSprint, steered, summed.
  now autorewrite with footprint.
Qed.

Lemma velocity_x_damped :
  x (velocity (damped q dt keys r)) =
    if isMoving (summed q keys r)
    then MathUtils.damp (x (velocity r))
           (x (moveVector (steered q keys r)) * targetSpeed keys r) 8 dt
    else MathUtils.damp (x (velocity r)) 0 5.5 dt.
Proof.
  unfold damped, dampHorizontal. rewrite targetSpeed_steered.
  destruct (isMoving (summed q keys r));
    cbn [velocity with_velocity x setX setZ];
    unfold steered, summed; now autorewrite with footprint.
Qed.

Lemma velocity_z_damped :
  z (velocity (damped q dt keys r)) =
    if isMoving (summed q keys r)
    then MathUtils.damp (z (velocity r))
           (z (moveVector (steered q keys r)) * targetSpeed keys r) 8 dt
    else MathUtils.damp (z (velocity r)) 0 5.5 dt.
Proof.
  unfold damped, dampHorizontal. rewrite targetSpeed_steered.
  destruct (isMoving (summed q keys r));
    cbn [velocity with_velocity z setX setZ];
    unfold steered, summed; now autorewrite with footprint.
Qed.

Lemma velocity_x_simulate :
  x (velocity (simulate q dt keys r)) = x (velocity (damped q dt keys r)).
Proof.
  unfold simulate, clamped, integrated, afterGravity, jumped.
  autorewrite with footprint. apply velocity_x_ticked.
Qed.

Lemma velocity_z_simulate :
  z (velocity (simulate q dt keys r)) = z (velocity (damped q dt keys r)).
Proof.
  unfold simulate, clamped, integrated, afterGravity, jumped.
  autorewrite with footprint. apply velocity_z_ticked.
Qed.

Lemma position_x_simulate :
  x (position (simulate q dt keys r)) =
    clampToArena
      (x (position (resolveSpawn r)) + x (velocity (damped q dt keys r)) * dt)
      (- ARENA_HALF_SIZE + 3) (ARENA_HALF_SIZE - 3).
Proof.
  unfold simulate. autorewrite with footprint.
  unfold clamped, clampPosition, integrated, integrate.
  cbn [position with_position x setX setY setZ].
  unfold afterGravity, jumped. autorewrite with footprint.
  now rewrite position_ticked, velocity_x_ticked.
Qed.

Lemma position_z_simulate :
  z (position (simulate q dt keys r)) =
    clampToArena
      (z (position (resolveSpawn r)) + z (velocity (damped q dt keys r)) * dt)
      (- ARENA_HALF_SIZE + 3) (ARENA_HALF_SIZE - 3).
Proof.
  unfold simulate. autorewrite with footprint.
  unfold clamped, clampPosition, integrated, integrate.
  cbn [position with_position z setX setY setZ].
  unfold afterGravity, jumped. autorewrite with footprint.
  now rewrite position_ticked, velocity_z_ticked.
Qed.

Lemma position_y_simulate :
  y (position (simulate q dt keys r)) =
    if isGrounded (simulate q dt keys r)
    then MathUtils.damp (y (position (clamped q dt keys r)))
           (desiredHeight keys (clamped q dt keys r)) 18 dt
    else y (position (clamped q dt keys r)).
Proof.
  rewrite isGrounded_simulate. unfold simulate, resolveGround.
  now destruct (leb (y (position (clamped q dt keys r)))
                    (desiredHeight keys (clamped q dt keys r))).
Qed.

End Horizontal.

Section StandardClamp.

Context {T : Terrain}.
Hypothesis clamp_standard : standardClamp.

Lemma clampToArena_range (value lo hi : R) :
  lo < hi -> lo <= clampToArena value lo hi <= hi.
Proof.
  intros H. rewrite clamp_standard by exact H. split; [apply Rmax_l|].
  apply Rmax_lub; [lra | apply Rmin_l].
Qed.

Lemma clampToArena_inside (value lo hi : R) :
  lo < hi -> lo <= value <= hi -> clampToArena value lo hi = value.
Proof.
  intros H [H1 H2]. rewrite clamp_standard by exact H.
  rewrite Rmin_right by exact H2. now apply Rmax_right.
Qed.

Lemma clampToArena_above (value lo hi : R) :
  lo < hi -> hi <= value -> clampToArena value lo hi = hi.
Proof.
  intros H1 H2. rewrite clamp_standard by exact H1.
  rewrite Rmin_left by exact H2. apply Rmax_right. lra.
Qed.

End StandardClamp.

Lemma damp_law (v target rate dt : R) :
  MathUtils.damp v target rate dt = target + (v - target) * exp (- rate * dt).
Proof. unfold MathUtils.damp, MathUtils.lerp. ring. Qed.

Lemma damp_zero_step (v target rate : R) : MathUtils.damp v target rate 0 = v.
Proof. rewrite damp_law, Rmult_0_r, exp_0. ring. Qed.

Lemma damp_at_target (v rate dt : R) : MathUtils.damp v v rate dt = v.
Proof. rewrite damp_law. ring. Qed.

(** ** Frames *)

Section Frames.

Context {T : Terrain}.

Lemma rig_frameStep_mounted (f : Frame) (w : World) :
  f_controls f <> None ->
  rig (frameStep f w) =
    simulate (f_look f) (clampDelta (f_delta f)) (f_keys f) (rig w).
Proof.
  intros H. unfold frameStep, useFrame, arrive. cbn [controls camera rig].
  destruct (f_controls f); [reflexivity | contradiction].
Qed.

Lemma rig_frameStep_unmounted (f : Frame) (w : World) :
  f_controls f = None -> rig (frameStep f w) = rig w.
Proof.
  intros H. unfold frameStep, useFrame, arrive. cbn [controls camera rig].
  now rewrite H.
Qed.

(** What one run of lines 185-193 does to the cooldown. *)
Lemma cooldown_simulate_cases (q : Quaternion) (dt : R) (keys : Keys) (r : Rig) :
  let c := cooldown r in
  let c' := cooldown (simulate q dt keys r) in
  (jumpFires keys (ticked q dt keys r) = true /\ c' = 0.35)
  \/ (jumpFires keys (ticked q dt keys r) = false /\ 0 < c /\ c' = c - dt)
  \/ (jumpFires keys (ticked q dt keys r) = false /\ c <= 0 /\ c' = c).
Proof.
  cbv zeta. rewrite cooldown_simulate.
  destruct (jumpFires keys (ticked q dt keys r)); [now left | right].
  rewrite cooldown_ticked.
  destruct (gtb (cooldown r) 0) eqn:E.
  - apply gtb_true in E. left. repeat split; lra.
  - apply gtb_false in E. right. repeat split; lra.
Qed.

Lemma cooldown_frameStep_cases (f : Frame) (w : World) :
  let c := cooldown (rig w) in
  let c' := cooldown (rig (frameStep f w)) in
  (jump (f_keys f) = true /\ isGrounded (rig w) = true /\ c' = 0.35)
  \/ (0 < c /\ c' = c - clampDelta (f_delta f))
  \/ ((f_controls f = None \/ c <= 0) /\ c' = c).
Proof.
  cbv zeta. destruct (f_controls f) as [ctl|] eqn:E.
  - rewrite rig_frameStep_mounted by congruence.
    destruct (cooldown_simulate_cases (f_look f) (clampDelta (f_delta f))
                (f_keys f) (rig w)) as [[J H]|[[_ [H1 H2]]|[_ [H1 H2]]]];
      cbv zeta in *; auto.
    rewrite jumpFires_ticked in J.
    apply andb_prop in J as [J _]. apply andb_prop in J as [J1 J2]. auto.
  - rewrite rig_frameStep_unmounted by assumption. auto.
Qed.

Lemma cooldown_frameStep_range (f : Frame) (w : World) :
  0 <= f_delta f ->
  -0.05 < cooldown (rig w) <= 0.35 ->
  -0.05 < cooldown (rig (frameStep f w)) <= 0.35.
Proof.
  intros Hd Hc.
  pose proof (clampDelta_nonneg _ Hd). pose proof (clampDelta_le (f_delta f)).
  destruct (cooldown_frameStep_cases f w) as [[_ [_ H1]]|[[H1 H2]|[_ H1]]];
    cbv zeta in *; lra.
Qed.

Lemma cooldown_trace_range (fs : list Frame) :
  Forall (fun f => 0 <= f_delta f) fs ->
  forall w, -0.05 < cooldown (rig w) <= 0.35 ->
  Forall (fun w' => -0.05 < cooldown (rig w') <= 0.35) (trace fs w).
Proof.
  induction 1 as [|f fs Hf _ IH]; intros w Hw; cbn [trace]; constructor.
  - now apply cooldown_frameStep_range.
  - apply IH. now apply cooldown_frameStep_range.
Qed.

(** C6, amended: over any session with non-negative elapsed times the
    cooldown stays in (-0.05, 0.35] (it may end up below zero, by less than
    one clamped step), and a frame either resets it to 0.35 (a jump: the
    key is down and the avatar was grounded), or lowers it by the clamped
    step (only while it is positive), or leaves it as it is (it is already
    at or below zero, or the frame is skipped). *)
Theorem cooldown_evolution (fs : list Frame) :
  Forall (fun f => 0 <= f_delta f) fs ->
  Forall (fun w => -0.05 < cooldown (rig w) <= 0.35) (trace fs initialWorld)
  /\ (forall (f : Frame) (w : World),
        let c := cooldown (rig w) in
        let c' := cooldown (rig (frameStep f w)) in
        (jump (f_keys f) = true /\ isGrounded (rig w) = true /\ c' = 0.35)
        \/ (0 < c /\ c' = c - clampDelta (f_delta f))
        \/ ((f_controls f = None \/ c <= 0) /\ c' = c)).
Proof.
  intros Hfs. split.
  - apply cooldown_trace_range; [exact Hfs|]. cbn. lra.
  - exact cooldown_frameStep_cases.
Qed.

End Frames.

(** ** The jump *)

Section Jump.

Context {T : Terrain}.

(** C4, amended: the jump branch is taken only with the jump key down, the
    avatar grounded when the frame began and the cooldown at or below zero
    after this frame's decrement.  Right after the branch the avatar is
    not grounded, the cooldown is 0.35 and the vertical velocity 12.5.  At
    the end of the same update the cooldown is still 0.35, but [grounded]
    is whatever ground resolution recomputes: it is false exactly when the
    height reached after gravity and integration lies above the eye
    height over the terrain, and true otherwise.  The vertical velocity the
    frame ends with is 0 when it ends grounded (the launch velocity is
    zeroed) and 12.5 less one step of gravity when it ends airborne. *)
Theorem jump_gate_and_outcome (q : Quaternion) (dt : R) (keys : Keys) (r : Rig) :
  jumpFires keys (ticked q dt keys r) = true ->
  (jump keys = true /\ isGrounded r = true
   /\ (if gtb (cooldown r) 0 then cooldown r - dt else cooldown r) <= 0)
  /\ (isGrounded (jumped q dt keys r) = false
      /\ cooldown (jumped q dt keys r) = 0.35
      /\ y (velocity (jumped q dt keys r)) = 12.5)
  /\ cooldown (simulate q dt keys r) = 0.35
  /\ (isGrounded (simulate q dt keys r) = false <->
      desiredHeight keys (clamped q dt keys r)
      < y (position (resolveSpawn r)) + (12.5 - gravity * dt) * dt)
  /\ y (velocity (simulate q dt keys r))
     = (if isGrounded (simulate q dt keys r) then 0 else 12.5 - gravity * dt).
Proof.
  intros J. split; [|split; [|split; [|split]]].
  - rewrite jumpFires_ticked in J.
    apply andb_prop in J as [J J3]. apply andb_prop in J as [J1 J2].
    apply leb_true in J3. auto.
  - unfold jumped, tryJump. rewrite J. cbn. auto.
  - rewrite cooldown_simulate, J. reflexivity.
  - rewrite isGrounded_simulate, position_y_clamped, velocity_y_afterGravity, J.
    rewrite leb_false. lra.
  - rewrite velocity_y_simulate, velocity_y_afterGravity, J. reflexivity.
Qed.

End Jump.

(** ** The arena boundary *)

Section Arena.

Context {T : Terrain}.

Lemma rig_useFrame_mounted (w : World) (delta : R) (keys : Keys) :
  controls w <> None ->
  rig (useFrame w delta keys) =
    simulate (quaternion (camera w)) (clampDelta delta) keys (rig w).
Proof.
  intros H. unfold useFrame. destruct (controls w); [reflexivity|contradiction].
Qed.

Lemma useFrame_unmounted (w : World) (delta : R) (keys : Keys) :
  controls w = None -> useFrame w delta keys = w.
Proof. intros H. unfold useFrame. now rewrite H. Qed.

Lemma resolveSpawn_away_from_origin (r : Rig) :
  lengthSq (position r) <> 0 -> resolveSpawn r = r.
Proof.
  intros H. unfold resolveSpawn. apply truthy_true in H. now rewrite H.
Qed.

Lemma lengthSq_x_nonzero (v : Vector3) : x v <> 0 -> lengthSq v <> 0.
Proof. intros H. unfold lengthSq. nra. Qed.

Lemma lengthSq_z_nonzero (v : Vector3) : z v <> 0 -> lengthSq v <> 0.
Proof. intros H. unfold lengthSq. nra. Qed.

(** C5: when the callback runs (the controls are mounted), [clampToArena]
    is a standard clamp and the clamp interval is not empty, the new
    [position.x] and [position.z] lie in
    [-ARENA_HALF_SIZE+3, ARENA_HALF_SIZE-3], wherever the avatar was
    before.  The clamp writes the position only: the horizontal velocity
    the frame ends with is the one damping produced, and an avatar that
    sits on the east boundary and keeps moving east ends the frame
    exactly on the boundary with that velocity. *)
Theorem position_within_arena (w : World) (delta : R) (keys : Keys) :
  controls w <> None ->
  standardClamp ->
  - ARENA_HALF_SIZE + 3 < ARENA_HALF_SIZE - 3 ->
  let r' := rig (useFrame w delta keys) in
  let v := velocity (damped (quaternion (camera w)) (clampDelta delta) keys
                            (rig w)) in
  (- ARENA_HALF_SIZE + 3 <= x (position r') <= ARENA_HALF_SIZE - 3)
  /\ (- ARENA_HALF_SIZE + 3 <= z (position r') <= ARENA_HALF_SIZE - 3)
  /\ (forall r : Rig, velocity (clampPosition r) = velocity r)
  /\ x (velocity r') = x v /\ z (velocity r') = z v
  /\ (x (position (rig w)) = ARENA_HALF_SIZE - 3 -> 0 <= delta -> 0 <= x v ->
      x (position r') = ARENA_HALF_SIZE - 3).
Proof.
  intros Hc Hclamp Hsize. cbv zeta. rewrite rig_useFrame_mounted by exact Hc.
  rewrite position_x_simulate, position_z_simulate,
    velocity_x_simulate, velocity_z_simulate.
  repeat split; try (apply clampToArena_range; [exact Hclamp | lra]).
  intros Hx Hd Hv.
  rewrite resolveSpawn_away_from_origin
    by (apply lengthSq_x_nonzero; lra).
  apply clampToArena_above; [exact Hclamp | lra |].
  pose proof (clampDelta_nonneg _ Hd). rewrite Hx. nra.
Qed.

End Arena.

(** ** Gravity and the clamped step *)

Section Gravity.

Context {T : Terrain}.

(** C7, amended: with no jump key and a vertical velocity of 0, the
    vertical velocity right after the gravity step is -32 times the
    clamped step [min(delta, 0.05)]; for an elapsed time of 1 s that is
    -1.6, and it is -32 * delta only for delta up to 0.05 s. *)
Theorem gravity_uses_clamped_step (q : Quaternion) (delta : R) (keys : Keys)
    (r : Rig) :
  isGrounded r = false -> y (velocity r) = 0 -> jump keys = false ->
  y (velocity (afterGravity q (clampDelta delta) keys r))
    = - (32 * Rmin delta 0.05)
  /\ y (velocity (afterGravity q (clampDelta 1) keys r)) = - 1.6.
Proof.
  intros _ Hv Hj. split.
  - rewrite velocity_y_afterGravity, jumpFires_ticked, Hj, Hv.
    cbn [andb]. unfold gravity, clampDelta. lra.
  - rewrite velocity_y_afterGravity, jumpFires_ticked, Hj, Hv.
    cbn [andb]. rewrite clampDelta_large by lra. unfold gravity. lra.
Qed.

End Gravity.

(** ** The guard of the callback *)

Section Guard.

Context {T : Terrain}.

Lemma controls_withLock (b : bool) (w : World) :
  controls (withLock b w) = None <-> controls w = None.
Proof. unfold withLock. cbn. destruct (controls w); cbn; split; congruence. Qed.

(** C1, amended: the update is skipped, with every ref, the camera and the
    store left as they were, when no controls object is mounted
    ([controlsRef.current] is null).  With any controls object mounted the
    body runs, and the pointer lock is not consulted: flipping the lock
    state before the frame changes nothing in the rig, the camera or the
    metrics the frame produces. *)
Theorem frame_skipped_when_unmounted (w : World) (delta : R) (keys : Keys)
    (b : bool) :
  (controls w = None -> useFrame w delta keys = w)
  /\ (controls w <> None ->
      rig (useFrame w delta keys)
      = simulate (quaternion (camera w)) (clampDelta delta) keys (rig w))
  /\ rig (useFrame (withLock b w) delta keys) = rig (useFrame w delta keys)
  /\ camera (useFrame (withLock b w) delta keys)
     = camera (useFrame w delta keys)
  /\ Store.speed (store (useFrame (withLock b w) delta keys))
     = Store.speed (store (useFrame w delta keys))
  /\ Store.altitude (store (useFrame (withLock b w) delta keys))
     = Store.altitude (store (useFrame w delta keys))
  /\ Store.stamina (store (useFrame (withLock b w) delta keys))
     = Store.stamina (store (useFrame w delta keys)).
Proof.
  split; [apply useFrame_unmounted|].
  split; [apply rig_useFrame_mounted|].
  unfold useFrame, withLock. cbn [controls rig camera store].
  destruct (controls w); cbn; auto 6.
Qed.

End Guard.

(** ** A frame of zero length *)

Section ZeroStep.

Context {T : Terrain}.

Lemma jumpFires_zero_step (q : Quaternion) (keys : Keys) (r : Rig) :
  jumpFires keys (ticked q 0 keys r) = jumpFires keys r.
Proof.
  rewrite jumpFires_ticked. unfold jumpFires.
  destruct (gtb (cooldown r) 0); [|reflexivity].
  now rewrite Rminus_0_r.
Qed.

(** C2, amended: with [dt = 0] and the controls mounted, position,
    horizontal velocity and stamina come out unchanged provided the
    position is not the origin, [x] and [z] are inside the interval of a
    standard clamp and stamina is inside [0, 100].  The jump branch and ground resolution
    still run: the cooldown becomes 0.35 if a jump fires and is unchanged
    otherwise, [grounded] is recomputed from the height, and the vertical
    velocity is zeroed when grounded.  A negative [dt] is not a no-op
    either: a running cooldown comes out larger by [-dt]. *)
Theorem zero_step_effect (w : World) (keys : Keys) :
  controls w <> None ->
  standardClamp ->
  - ARENA_HALF_SIZE + 3 < ARENA_HALF_SIZE - 3 ->
  lengthSq (position (rig w)) <> 0 ->
  - ARENA_HALF_SIZE + 3 <= x (position (rig w)) <= ARENA_HALF_SIZE - 3 ->
  - ARENA_HALF_SIZE + 3 <= z (position (rig w)) <= ARENA_HALF_SIZE - 3 ->
  0 <= stamina (rig w) <= 100 ->
  let r := rig w in
  let r' := rig (useFrame w 0 keys) in
  position r' = position r
  /\ x (velocity r') = x (velocity r)
  /\ z (velocity r') = z (velocity r)
  /\ stamina r' = stamina r
  /\ cooldown r' = (if jumpFires keys r then 0.35 else cooldown r)
  /\ isGrounded r' = leb (y (position r)) (desiredHeight keys r)
  /\ y (velocity r') =
       (if isGrounded r' then 0
        else if jumpFires keys r then 12.5 else y (velocity r))
  /\ (forall delta : R,
        delta < 0 -> 0 < cooldown r ->
        cooldown (rig (useFrame w delta keys)) = cooldown r - delta).
Proof.
  intros Hc Hclamp Hsize Hp Hx Hz Hs. cbv zeta.
  rewrite rig_useFrame_mounted by exact Hc.
  rewrite clampDelta_small by lra.
  set (q := quaternion (camera w)). set (r := rig w) in *.
  assert (Px : x (position (simulate q 0 keys r)) = x (position r)).
  { rewrite position_x_simulate, resolveSpawn_away_from_origin by exact Hp.
    rewrite Rmult_0_r, Rplus_0_r. now apply clampToArena_inside. }
  assert (Pz : z (position (simulate q 0 keys r)) = z (position r)).
  { rewrite position_z_simulate, resolveSpawn_away_from_origin by exact Hp.
    rewrite Rmult_0_r, Rplus_0_r. now apply clampToArena_inside. }
  assert (Yc : y (position (clamped q 0 keys r)) = y (position r)).
  { rewrite position_y_clamped, resolveSpawn_away_from_origin by exact Hp.
    ring. }
  assert (Dc : desiredHeight keys (clamped q 0 keys r) = desiredHeight keys r).
  { unfold desiredHeight, terrainHeightAtPoint.
    replace (x (position (clamped q 0 keys r)))
      with (x (position (simulate q 0 keys r)))
      by (unfold simulate; now autorewrite with footprint).
    replace (z (position (clamped q 0 keys r)))
      with (z (position (simulate q 0 keys r)))
      by (unfold simulate; now autorewrite with footprint).
    now rewrite Px, Pz. }
  assert (G : isGrounded (simulate q 0 keys r)
              = leb (y (position r)) (desiredHeight keys r)).
  { now rewrite isGrounded_simulate, Yc, Dc. }
  assert (Py : y (position (simulate q 0 keys r)) = y (position r)).
  { rewrite position_y_simulate, Yc.
    destruct (isGrounded (simulate q 0 keys r)); [apply damp_zero_step|reflexivity]. }
  repeat split.
  - destruct (position (simulate q 0 keys r)), (position r).
    cbn in Px, Py, Pz. now subst.
  - rewrite velocity_x_simulate, velocity_x_damped.
    destruct (isMoving (summed q keys r)); apply damp_zero_step.
  - rewrite velocity_z_simulate, velocity_z_damped.
    destruct (isMoving (summed q keys r)); apply damp_zero_step.
  - rewrite stamina_simulate.
    destruct (canSprint keys r && isMoving (summed q keys r)).
    + rewrite Rmult_0_r, Rminus_0_r. apply Rmax_right. lra.
    + rewrite Rmult_0_r, Rplus_0_r. apply Rmin_right. lra.
  - rewrite cooldown_simulate, jumpFires_zero_step, cooldown_ticked.
    destruct (jumpFires keys r); [reflexivity|].
    destruct (gtb (cooldown r) 0); [ring|reflexivity].
  - exact G.
  - rewrite velocity_y_simulate, velocity_y_afterGravity, jumpFires_zero_step.
    destruct (isGrounded (simulate q 0 keys r)); [reflexivity|].
    destruct (jumpFires keys r); ring.
  - intros delta Hd Hcd.
    rewrite rig_useFrame_mounted by exact Hc.
    rewrite clampDelta_small by lra.
    rewrite cooldown_simulate, jumpFires_ticked, cooldown_ticked. fold r.
    replace (gtb (cooldown r) 0) with true
      by (symmetry; apply gtb_true; lra).
    cbv iota.
    replace (leb (cooldown r - delta) 0) with false
      by (symmetry; apply leb_false; lra).
    now rewrite andb_false_r.
Qed.

End ZeroStep.

(** ** Steering: look direction, movement intent and damping *)

Section Steering.

Context {T : Terrain}.

Lemma length_positive (v : Vector3) : lengthSq v <> 0 -> 0 < length v.
Proof.
  intros H. unfold length. apply sqrt_lt_R0.
  assert (0 <= lengthSq v) by (unfold lengthSq; nra). lra.
Qed.

Lemma lengthSq_normalize (v : Vector3) :
  lengthSq v <> 0 -> lengthSq (normalize v) = 1.
Proof.
  intros H. pose proof (length_positive v H) as L.
  unfold normalize.
  replace (truthy (length v)) with true
    by (symmetry; apply truthy_true; lra).
  assert (S : length v * length v = lengthSq v).
  { unfold length. apply sqrt_sqrt. unfold lengthSq. nra. }
  unfold divideScalar, multiplyScalar. unfold lengthSq at 1.
  cbn [x y z]. unfold lengthSq in S.
  transitivity ((x v * x v + y v * y v + z v * z v)
                / (length v * length v)); [field; lra|].
  rewrite S. field. rewrite <- S. nra.
Qed.

Lemma normalize_unit (v : Vector3) :
  lengthSq v = 1 -> x (normalize v) = x v /\ z (normalize v) = z v.
Proof.
  intros H. unfold normalize, length. rewrite H, sqrt_1.
  replace (truthy 1) with true by (symmetry; apply truthy_true; lra).
  cbn. split; field.
Qed.

Lemma frontVector_lookDirections (q : Quaternion) (r : Rig) :
  frontVector (lookDirections q r) = normalize (flatForward q).
Proof. reflexivity. Qed.

Lemma y_normalize_flatForward (q : Quaternion) :
  y (normalize (flatForward q)) = 0.
Proof. unfold normalize, divideScalar. cbn. ring. Qed.

(** With only the forward key down and a look direction that is not
    vertical, the movement intent is the unit front vector. *)
Lemma forward_only_move (q : Quaternion) (r : Rig) :
  lengthSq (flatForward q) <> 0 ->
  isMoving (summed q forwardKey r) = true
  /\ x (moveVector (steered q forwardKey r)) = x (normalize (flatForward q))
  /\ z (moveVector (steered q forwardKey r)) = z (normalize (flatForward q)).
Proof.
  intros H. pose proof (lengthSq_normalize _ H) as U.
  assert (M : moveVector (summed q forwardKey r)
              = add (mkVector3 0 0 0) (normalize (flatForward q))).
  { reflexivity. }
  assert (L : lengthSq (moveVector (summed q forwardKey r)) = 1).
  { rewrite M, <- U. unfold lengthSq, add. cbn [x y z]. ring. }
  assert (Mv : isMoving (summed q forwardKey r) = true).
  { unfold isMoving. rewrite L. apply gtb_true. lra. }
  split; [exact Mv|].
  unfold steered, normalizeMove. rewrite Mv. cbn [moveVector with_moveVector].
  destruct (normalize_unit _ L) as [Hx Hz]. rewrite Hx, Hz, M.
  unfold add. cbn [x y z]. split; ring.
Qed.

Lemma targetSpeed_forwardKey (r : Rig) : targetSpeed forwardKey r = 9.5.
Proof.
  unfold targetSpeed, sprintFactor, canSprint, crouchFactor, walkSpeed.
  cbn. lra.
Qed.

(** C8: with the controls mounted, each horizontal velocity component
    ends the frame at [target + (v - target) * exp (- rate * dt)] for the
    clamped step [dt], with rate 8 and the target along the unit movement
    intent at the target speed when there is movement intent, and rate 5.5
    and target 0 otherwise.  From rest, with only the forward key down for
    a frame of 0.016 s and a look direction that is not vertical, the
    velocity is [9.5 * (1 - exp (- (8 * 0.016)))] times the unit flattened
    front vector, and that factor is the horizontal speed published. *)
Theorem horizontal_damping_law (w : World) (delta : R) (keys : Keys) :
  controls w <> None ->
  let q := quaternion (camera w) in
  let r := rig w in
  let w' := useFrame w delta keys in
  let dt := clampDelta delta in
  let moving := isMoving (summed q keys r) in
  let rate := if moving then 8 else 5.5 in
  let direction := moveVector (steered q keys r) in
  let targetX := if moving then x direction * targetSpeed keys r else 0 in
  let targetZ := if moving then z direction * targetSpeed keys r else 0 in
  x (velocity (rig w'))
    = targetX + (x (velocity r) - targetX) * exp (- rate * dt)
  /\ z (velocity (rig w'))
     = targetZ + (z (velocity r) - targetZ) * exp (- rate * dt)
  /\ (moving = true -> lengthSq direction = 1)
  /\ (keys = forwardKey -> delta = 0.016 ->
      x (velocity r) = 0 -> z (velocity r) = 0 ->
      lengthSq (flatForward q) <> 0 ->
      let s := 9.5 * (1 - exp (- (8 * 0.016))) in
      let front := normalize (flatForward q) in
      x (velocity (rig w')) = s * x front
      /\ z (velocity (rig w')) = s * z front
      /\ lengthSq front = 1 /\ y front = 0 /\ 0 < s
      /\ horizontalSpeed (rig w') = s
      /\ Store.speed (store w') = s).
Proof.
  intros Hc. cbv zeta.
  assert (S : Store.speed (store (useFrame w delta keys))
              = horizontalSpeed (rig (useFrame w delta keys))).
  { unfold useFrame. destruct (controls w); [reflexivity|contradiction]. }
  rewrite S. clear S.
  rewrite rig_useFrame_mounted by exact Hc.
  set (q := quaternion (camera w)). set (r := rig w).
  unfold horizontalSpeed.
  rewrite velocity_x_simulate, velocity_z_simulate,
    velocity_x_damped, velocity_z_damped.
  split; [|split; [|split]].
  - destruct (isMoving (summed q keys r)); apply damp_law.
  - destruct (isMoving (summed q keys r)); apply damp_law.
  - intros Mv. unfold steered, normalizeMove. rewrite Mv.
    cbn [moveVector with_moveVector]. apply lengthSq_normalize.
    unfold isMoving in Mv. apply gtb_true in Mv. lra.
  - intros -> -> Vx Vz Hq.
    destruct (forward_only_move q r Hq) as [Mv [Mx Mz]].
    pose proof (lengthSq_normalize _ Hq) as U.
    pose proof (y_normalize_flatForward q) as Y0.
    rewrite Mv, Mx, Mz, Vx, Vz, targetSpeed_forwardKey.
    rewrite clampDelta_small by lra. rewrite !damp_law.
    set (f := normalize (flatForward q)) in *.
    replace (- (8) * 0.016) with (- (8 * 0.016)) by lra.
    set (e := exp (- (8 * 0.016))).
    assert (E : 0 < 1 - e).
    { unfold e. pose proof (exp_increasing (- (8 * 0.016)) 0).
      rewrite exp_0 in *. lra. }
    repeat split; try ring; try assumption; try lra.
    + replace ((x f * 9.5 + (0 - x f * 9.5) * e)
               * (x f * 9.5 + (0 - x f * 9.5) * e)
               + (z f * 9.5 + (0 - z f * 9.5) * e)
                 * (z f * 9.5 + (0 - z f * 9.5) * e))
        with ((9.5 * (1 - e)) * (9.5 * (1 - e)) * lengthSq f)
        by (unfold lengthSq; rewrite Y0; ring).
      rewrite U, Rmult_1_r. apply sqrt_square. lra.
    + replace ((x f * 9.5 + (0 - x f * 9.5) * e)
               * (x f * 9.5 + (0 - x f * 9.5) * e)
               + (z f * 9.5 + (0 - z f * 9.5) * e)
                 * (z f * 9.5 + (0 - z f * 9.5) * e))
        with ((9.5 * (1 - e)) * (9.5 * (1 - e)) * lengthSq f)
        by (unfold lengthSq; rewrite Y0; ring).
      rewrite U, Rmult_1_r. apply sqrt_square. lra.
Qed.

End Steering.

(** ** What a frame depends on *)

Section Determinism.

Context {T : Terrain}.

(** The heading and the three scratch vectors are written before they are
    read, so the rig a frame produces does not depend on what they held. *)
Lemma summed_ignores_scratch (q : Quaternion) (keys : Keys)
    (v p : Vector3) (s : R) (g : bool) (c : R)
    (h h' : Quaternion) (f f' sd sd' m m' : Vector3) :
  summed q keys (mkRig v p s g c h f sd m)
  = summed q keys (mkRig v p s g c h' f' sd' m').
Proof.
  unfold summed, resolveSpawn. cbn [position].
  destruct (negb (truthy (lengthSq p))); reflexivity.
Qed.

Lemma clamped_ignores_scratch (q : Quaternion) (dt : R) (keys : Keys)
    (v p : Vector3) (s : R) (g : bool) (c : R)
    (h h' : Quaternion) (f f' sd sd' m m' : Vector3) :
  clamped q dt keys (mkRig v p s g c h f sd m)
  = clamped q dt keys (mkRig v p s g c h' f' sd' m').
Proof.
  unfold clamped, integrated, afterGravity, jumped, ticked, damped, steered.
  now rewrite (summed_ignores_scratch q keys v p s g c h h' f f' sd sd' m m').
Qed.

Lemma simulate_ignores_scratch (q : Quaternion) (dt : R) (keys : Keys)
    (v p : Vector3) (s : R) (g : bool) (c : R)
    (h h' : Quaternion) (f f' sd sd' m m' : Vector3) :
  simulate q dt keys (mkRig v p s g c h f sd m)
  = simulate q dt keys (mkRig v p s g c h' f' sd' m').
Proof.
  unfold simulate.
  now rewrite (clamped_ignores_scratch q dt keys v p s g c
                 h h' f f' sd sd' m m').
Qed.

(** C10: two frames that run (controls mounted) from the same position,
    velocity, stamina, grounded flag and cooldown, with the same elapsed
    time, keys, camera orientation and height field, end with the same rig,
    the same camera position and the same published speed, altitude and
    stamina, whatever else the two worlds held. *)
Theorem frame_is_determined (w1 w2 : World) (delta : R) (keys : Keys) :
  controls w1 <> None -> controls w2 <> None ->
  position (rig w1) = position (rig w2) ->
  velocity (rig w1) = velocity (rig w2) ->
  stamina (rig w1) = stamina (rig w2) ->
  isGrounded (rig w1) = isGrounded (rig w2) ->
  cooldown (rig w1) = cooldown (rig w2) ->
  quaternion (camera w1) = quaternion (camera w2) ->
  let w1' := useFrame w1 delta keys in
  let w2' := useFrame w2 delta keys in
  rig w1' = rig w2'
  /\ cam_position (camera w1') = cam_position (camera w2')
  /\ Store.speed (store w1') = Store.speed (store w2')
  /\ Store.altitude (store w1') = Store.altitude (store w2')
  /\ Store.stamina (store w1') = Store.stamina (store w2').
Proof.
  intros C1 C2 Hp Hv Hs Hg Hc Hq. cbv zeta. unfold useFrame.
  destruct (controls w1); [|contradiction].
  destruct (controls w2); [|contradiction].
  destruct w1 as [[v1 p1 s1 g1 c1 h1 f1 sd1 m1] [q1 cp1] k1 st1].
  destruct w2 as [[v2 p2 s2 g2 c2 h2 f2 sd2 m2] [q2 cp2] k2 st2].
  cbn [rig camera quaternion position velocity stamina isGrounded cooldown]
    in Hp, Hv, Hs, Hg, Hc, Hq.
  subst. cbn [rig camera store quaternion cam_position copy].
  rewrite (simulate_ignores_scratch q2 (clampDelta delta) keys v2 p2 s2 g2 c2
             h1 h2 f1 f2 sd1 sd2 m1 m2).
  rewrite (clamped_ignores_scratch q2 (clampDelta delta) keys v2 p2 s2 g2 c2
             h1 h2 f1 f2 sd1 sd2 m1 m2).
  repeat split.
Qed.

End Determinism.

(** ** Runs on the level terrain *)

Section FlatRuns.

Local Existing Instance flatTerrain.

Lemma flatTerrain_standardClamp : standardClamp.
Proof. intros value lo hi _. reflexivity. Qed.

Lemma flatTerrain_interval : - ARENA_HALF_SIZE + 3 < ARENA_HALF_SIZE - 3.
Proof. cbn. lra. Qed.

Lemma resolveSpawn_initialRig : resolveSpawn initialRig = initialRig.
Proof.
  unfold resolveSpawn.
  replace (truthy (lengthSq (position initialRig))) with true; [reflexivity|].
  symmetry. apply truthy_true. unfold lengthSq. cbn. lra.
Qed.

Lemma desiredHeight_flat_standing (keys : Keys) (r : Rig) :
  crouch keys = false -> desiredHeight keys r = 1.72.
Proof.
  intros H. unfold desiredHeight, terrainHeightAtPoint, playerHeight.
  rewrite H. cbn. lra.
Qed.

(** A frame without keys leaves a cooldown that is still running [dt]
    lower. *)
Lemma idle_cooldown (delta c : R) (w : World) :
  delta <= 0.05 -> cooldown (rig w) = c -> 0 < c ->
  cooldown (rig (frameStep (idleFrame delta) w)) = c - delta.
Proof.
  intros Hd Hc Hpos.
  rewrite rig_frameStep_mounted by (cbn; congruence).
  rewrite cooldown_simulate, jumpFires_ticked, cooldown_ticked.
  cbn [f_keys idleFrame jump noKeys andb f_delta].
  rewrite Hc, clampDelta_small by exact Hd.
  replace (gtb c 0) with true; [reflexivity|].
  symmetry. apply gtb_true. lra.
Qed.

(** The first frame after mounting: the avatar starts at height 0, below
    the eye height over the terrain, so ground resolution catches it. *)
Lemma first_frame_grounds (delta : R) :
  0 <= delta ->
  let w := frameStep (idleFrame delta) initialWorld in
  isGrounded (rig w) = true /\ cooldown (rig w) = 0.
Proof.
  intros Hd. cbv zeta.
  rewrite rig_frameStep_mounted by (cbn; congruence).
  cbn [f_keys f_look f_delta idleFrame rig initialWorld].
  pose proof (clampDelta_nonneg _ Hd) as H0.
  pose proof (clampDelta_le delta) as H1.
  split.
  - rewrite isGrounded_simulate, desiredHeight_flat_standing by reflexivity.
    apply leb_true.
    rewrite position_y_clamped, velocity_y_afterGravity, jumpFires_ticked.
    rewrite resolveSpawn_initialRig. cbn. unfold gravity. nra.
  - rewrite cooldown_simulate, jumpFires_ticked, cooldown_ticked.
    cbn [jump noKeys andb cooldown initialRig].
    replace (gtb 0 0) with false; [reflexivity|].
    symmetry. apply gtb_false. lra.
Qed.

Lemma isMoving_no_direction (q : Quaternion) (keys : Keys) (r : Rig) :
  forward keys = false -> backward keys = false ->
  left keys = false -> right keys = false ->
  isMoving (summed q keys r) = false.
Proof.
  intros Hf Hb Hl Hr. unfold summed, sumMoves, isMoving.
  rewrite Hf, Hb, Hl, Hr. cbn. apply gtb_false. unfold lengthSq. cbn. lra.
Qed.

(** After the first frame the avatar is grounded, still well below eye
    height (damping has covered only part of the way), at [z = 20]. *)
Lemma settledWorld_rig :
  isGrounded (rig settledWorld) = true
  /\ cooldown (rig settledWorld) = 0
  /\ z (position (rig settledWorld)) = 20
  /\ y (position (rig settledWorld)) <= 1.5.
Proof.
  destruct (first_frame_grounds 0.016) as [Hg Hc]; [lra|]. cbv zeta in Hg, Hc.
  fold settledWorld in Hg, Hc.
  split; [exact Hg|]. split; [exact Hc|].
  unfold settledWorld in *. rewrite rig_frameStep_mounted in * by (cbn; congruence).
  cbn [f_keys f_look f_delta idleFrame rig initialWorld] in *.
  rewrite clampDelta_small in * by lra.
  split.
  - rewrite position_z_simulate, velocity_z_damped, resolveSpawn_initialRig.
    rewrite isMoving_no_direction by reflexivity.
    rewrite damp_at_target.
    rewrite (clampToArena_inside flatTerrain_standardClamp) by (cbn; lra).
    cbn. lra.
  - rewrite position_y_simulate, Hg.
    rewrite desiredHeight_flat_standing by reflexivity.
    rewrite position_y_clamped, velocity_y_afterGravity, jumpFires_ticked.
    rewrite resolveSpawn_initialRig. cbn. rewrite damp_law. unfold gravity.
    pose proof (exp_ineq1_le (- (18) * 0.016)). nra.
Qed.

Lemma settled_jump_fires :
  jumpFires jumpKey
    (ticked identity (clampDelta 0.016) jumpKey (rig settledWorld)) = true.
Proof.
  destruct settledWorld_rig as [Hg [Hc _]].
  rewrite jumpFires_ticked, Hg, Hc. cbn [jump jumpKey andb].
  replace (gtb 0 0) with false by (symmetry; apply gtb_false; lra).
  apply leb_true. lra.
Qed.

Lemma settledWorld_mounted : controls settledWorld <> None.
Proof. cbn. discriminate. Qed.

Lemma mountedWorld_mounted : controls mountedWorld <> None.
Proof. cbn. discriminate. Qed.

(** C4, refuted as stated: two frames of 16 ms after mounting, the second
    with the jump key down.  The jump branch is taken in the second frame,
    and the frame still ends grounded: the 0.19 units gained in the frame do
    not lift the avatar over the eye height, so ground resolution sets
    [grounded] again and zeroes the launch velocity. *)
Lemma jump_swallowed_by_ground :
  jumpFires jumpKey
    (ticked identity (clampDelta 0.016) jumpKey (rig settledWorld)) = true
  /\ isGrounded (rig eagerJump) = true
  /\ y (velocity (rig eagerJump)) = 0.
Proof.
  destruct settledWorld_rig as [Hg [Hc [Hz Hy]]].
  pose proof settled_jump_fires as J.
  assert (G : isGrounded (rig eagerJump) = true).
  { unfold eagerJump. rewrite rig_frameStep_mounted by (cbn; congruence).
    cbn [f_keys f_look f_delta jumpFrame].
    rewrite isGrounded_simulate, desiredHeight_flat_standing by reflexivity.
    rewrite position_y_clamped, velocity_y_afterGravity, J.
    rewrite resolveSpawn_away_from_origin
      by (apply lengthSq_z_nonzero; lra).
    rewrite clampDelta_small by lra. apply leb_true. unfold gravity. lra. }
  split; [exact J|]. split; [exact G|].
  unfold eagerJump in *. rewrite rig_frameStep_mounted in * by (cbn; congruence).
  rewrite velocity_y_simulate, G. reflexivity.
Qed.

Lemma jump_frame_resets (delta : R) (w : World) :
  isGrounded (rig w) = true -> cooldown (rig w) = 0 ->
  cooldown (rig (frameStep (jumpFrame delta) w)) = 0.35.
Proof.
  intros Hg Hc.
  rewrite rig_frameStep_mounted by (cbn; congruence).
  rewrite cooldown_simulate, jumpFires_ticked, Hg, Hc.
  cbn [f_keys jumpFrame jump jumpKey andb].
  replace (gtb 0 0) with false by (symmetry; apply gtb_false; lra).
  replace (leb 0 0) with true by (symmetry; apply leb_true; lra).
  reflexivity.
Qed.

(** C6, refuted as stated: in this session every elapsed time is positive,
    yet after its last frame the cooldown is below zero (0.35 - 9 * 0.04). *)
Lemma cooldown_goes_negative :
  Forall (fun f => 0 <= f_delta f) coolingSession
  /\ exists w : World,
       In w (trace coolingSession initialWorld) /\ cooldown (rig w) < 0.
Proof.
  split.
  - unfold coolingSession. cbn [repeat].
    repeat constructor; cbn [f_delta idleFrame jumpFrame]; lra.
  - exists (runFrames coolingSession initialWorld). split.
    + unfold coolingSession, runFrames. cbn [repeat trace fold_left].
      do 10 right. left. reflexivity.
    + unfold coolingSession, runFrames. cbn [repeat fold_left].
      destruct (first_frame_grounds 0.05) as [Hg Hc]; [lra|].
      cbv zeta in Hg, Hc.
      pose proof (jump_frame_resets 0.05 _ Hg Hc) as H.
      do 9 (apply idle_cooldown with (delta := 0.04) in H; [|lra|lra]).
      rewrite H. lra.
Qed.

(** C1, refuted as stated: the controls are mounted, the pointer is not
    locked and the store says so, and the frame still runs: the avatar,
    created in the air at height 0, is caught by ground resolution. *)
Lemma unlocked_frame_still_updates :
  controls mountedWorld = Some unlockedControls
  /\ isLocked unlockedControls = false
  /\ Store.locked (store mountedWorld) = false
  /\ isGrounded (rig mountedWorld) = false
  /\ isGrounded (rig (useFrame mountedWorld 0.016 noKeys)) = true
  /\ useFrame mountedWorld 0.016 noKeys <> mountedWorld.
Proof.
  assert (G : isGrounded (rig (useFrame mountedWorld 0.016 noKeys)) = true).
  { rewrite rig_useFrame_mounted by exact mountedWorld_mounted.
    cbn [rig camera quaternion mountedWorld initialCamera].
    rewrite isGrounded_simulate, desiredHeight_flat_standing by reflexivity.
    apply leb_true.
    rewrite position_y_clamped, velocity_y_afterGravity, jumpFires_ticked.
    rewrite resolveSpawn_initialRig, clampDelta_small by lra.
    cbn. unfold gravity. lra. }
  repeat split; try reflexivity; [exact G|].
  intros E. rewrite E in G. discriminate G.
Qed.

(** C2, refuted as stated: a frame of zero length with the jump key down,
    taken from the grounded state one frame after mounting, resets the
    cooldown from 0 to 0.35. *)
Lemma zero_step_jump_changes_state :
  cooldown (rig settledWorld) = 0
  /\ cooldown (rig (useFrame settledWorld 0 jumpKey)) = 0.35.
Proof.
  destruct settledWorld_rig as [Hg [Hc _]]. split; [exact Hc|].
  rewrite rig_useFrame_mounted by exact settledWorld_mounted.
  rewrite clampDelta_small by lra.
  rewrite cooldown_simulate, jumpFires_zero_step.
  unfold jumpFires. rewrite Hg, Hc. cbn [jump jumpKey andb].
  replace (leb 0 0) with true by (symmetry; apply leb_true; lra).
  reflexivity.
Qed.

(** C7, refuted as stated: airborne, vertical velocity 0, no key, one
    second elapsed; after the gravity step the vertical velocity is -1.6,
    not -32, because the step is clamped to 0.05 s. *)
Lemma one_second_gravity_step :
  isGrounded initialRig = false
  /\ y (velocity initialRig) = 0
  /\ y (velocity (afterGravity identity (clampDelta 1) noKeys initialRig))
     = - 1.6
  /\ y (velocity (afterGravity identity (clampDelta 1) noKeys initialRig))
     <> - 32.
Proof.
  assert (V : y (velocity (afterGravity identity (clampDelta 1) noKeys
                             initialRig)) = - 1.6).
  { rewrite velocity_y_afterGravity, jumpFires_ticked.
    cbn [jump noKeys andb]. rewrite clampDelta_large by lra.
    unfold gravity. cbn. lra. }
  repeat split; try reflexivity; [exact V|]. rewrite V. lra.
Qed.

(** C9, the code at session start: the position ref is created as
    (0, 0, 20), which is not the zero vector, so the spawn branch of lines
    142-145 does not run and the height stays 0 instead of the terrain
    height plus 1.72; only from the zero vector would the branch place the
    avatar at (0, terrain + 1.72, 25). *)
Lemma spawn_not_resolved_at_start :
  position (rig initialWorld) = mkVector3 0 0 20
  /\ resolveSpawn initialRig = initialRig
  /\ y (position (rig initialWorld)) <> terrainHeight 0 20 + playerHeight
  /\ position (resolveSpawn (with_position zero initialRig))
     = mkVector3 0 (terrainHeight 0 25 + playerHeight) 25.
Proof.
  split; [reflexivity|]. split; [apply resolveSpawn_initialRig|].
  split; [cbn; unfold playerHeight; lra|].
  unfold resolveSpawn.
  replace (truthy (lengthSq (position (with_position zero initialRig))))
    with false; [reflexivity|].
  symmetry. apply truthy_false. unfold lengthSq. cbn. lra.
Qed.

(** *** The theorems at concrete inputs *)

Lemma coolingSession_deltas : Forall (fun f => 0 <= f_delta f) coolingSession.
Proof.
  unfold coolingSession. cbn [repeat].
  repeat constructor; cbn [f_delta idleFrame jumpFrame]; lra.
Qed.

Lemma flatForward_identity : lengthSq (flatForward identity) <> 0.
Proof. unfold lengthSq. cbn. lra. Qed.

Lemma stamina_stays_in_range_witness :
  Forall (fun f => 0 <= f_delta f) coolingSession
  /\ Forall (fun w => 0 <= stamina (rig w) <= 100)
            (trace coolingSession initialWorld).
Proof.
  split; [exact coolingSession_deltas|].
  exact (proj1 (stamina_stays_in_range coolingSession coolingSession_deltas)).
Defined.

Lemma cooldown_evolution_witness :
  Forall (fun f => 0 <= f_delta f) coolingSession
  /\ Forall (fun w => -0.05 < cooldown (rig w) <= 0.35)
            (trace coolingSession initialWorld).
Proof.
  split; [exact coolingSession_deltas|].
  exact (proj1 (cooldown_evolution coolingSession coolingSession_deltas)).
Defined.

Lemma jump_gate_and_outcome_witness :
  jumpFires jumpKey
    (ticked identity (clampDelta 0.016) jumpKey (rig settledWorld)) = true
  /\ cooldown (simulate identity (clampDelta 0.016) jumpKey (rig settledWorld))
     = 0.35.
Proof.
  split; [exact settled_jump_fires|].
  destruct (jump_gate_and_outcome identity (clampDelta 0.016) jumpKey
              (rig settledWorld) settled_jump_fires) as [_ [_ [H _]]].
  exact H.
Defined.

Lemma position_within_arena_witness :
  - 60 + 3 < 60 - 3
  /\ - 60 + 3 <= x (position (rig (useFrame mountedWorld 0.016 noKeys)))
     <= 60 - 3.
Proof.
  assert (H : - 60 + 3 < 60 - 3) by lra.
  split; [exact H|].
  exact (proj1 (position_within_arena mountedWorld 0.016 noKeys
                  mountedWorld_mounted flatTerrain_standardClamp H)).
Defined.

Lemma gravity_uses_clamped_step_witness :
  isGrounded initialRig = false /\ y (velocity initialRig) = 0
  /\ jump noKeys = false
  /\ y (velocity (afterGravity identity (clampDelta 1) noKeys initialRig))
     = - 1.6.
Proof.
  repeat split.
  exact (proj2 (gravity_uses_clamped_step identity 1 noKeys initialRig
                  eq_refl eq_refl eq_refl)).
Defined.

Lemma zero_step_effect_witness :
  position (rig (useFrame mountedWorld 0 noKeys)) = position (rig mountedWorld)
  /\ stamina (rig (useFrame mountedWorld 0 noKeys)) = stamina (rig mountedWorld).
Proof.
  assert (Hp : lengthSq (position (rig mountedWorld)) <> 0)
    by (unfold lengthSq; cbn; lra).
  assert (Hx : - ARENA_HALF_SIZE + 3 <= x (position (rig mountedWorld))
               <= ARENA_HALF_SIZE - 3) by (cbn; lra).
  assert (Hz : - ARENA_HALF_SIZE + 3 <= z (position (rig mountedWorld))
               <= ARENA_HALF_SIZE - 3) by (cbn; lra).
  assert (Hs : 0 <= stamina (rig mountedWorld) <= 100) by (cbn; lra).
  destruct (zero_step_effect mountedWorld noKeys mountedWorld_mounted
              flatTerrain_standardClamp flatTerrain_interval
              Hp Hx Hz Hs) as [P [_ [_ [S _]]]].
  split; [exact P | exact S].
Defined.

Lemma horizontal_damping_law_witness :
  horizontalSpeed (rig (useFrame mountedWorld 0.016 forwardKey))
  = 9.5 * (1 - exp (- (8 * 0.016))).
Proof.
  destruct (horizontal_damping_law mountedWorld 0.016 forwardKey
              mountedWorld_mounted) as [_ [_ [_ H]]].
  destruct (H eq_refl eq_refl eq_refl eq_refl flatForward_identity)
    as [_ [_ [_ [_ [_ [S _]]]]]].
  exact S.
Defined.

Lemma frame_is_determined_witness :
  rig (useFrame mountedWorld 0.016 forwardKey)
  = rig (useFrame scribbledWorld 0.016 forwardKey).
Proof.
  assert (C : controls scribbledWorld <> None) by (cbn; discriminate).
  exact (proj1 (frame_is_determined mountedWorld scribbledWorld 0.016
                  forwardKey mountedWorld_mounted C
                  eq_refl eq_refl eq_refl eq_refl eq_refl eq_refl)).
Defined.

End FlatRuns.

(** * Further properties of the controller *)

(** ** Invariants of a session *)

Section SessionInvariants.

Context {T : Terrain}.

(** A property of the rig that every run of the body keeps, for clamped
    steps that are not negative, holds after every frame of a session. *)
Lemma trace_rig_invariant (P : Rig -> Prop) :
  (forall (q : Quaternion) (dt : R) (keys : Keys) (r : Rig),
      0 <= dt <= 0.05 -> P r -> P (simulate q dt keys r)) ->
  forall fs : list Frame,
    Forall (fun f => 0 <= f_delta f) fs ->
    forall w : World, P (rig w) ->
    Forall (fun w' => P (rig w')) (trace fs w).
Proof.
  intros Hstep fs Hfs.
  induction Hfs as [|f fs Hf _ IH]; intros w Hw; cbn [trace]; [constructor|].
  assert (Hw' : P (rig (frameStep f w))).
  { destruct (f_controls f) as [ctl|] eqn:E.
    - rewrite rig_frameStep_mounted by congruence.
      apply Hstep; [|exact Hw].
      split; [now apply clampDelta_nonneg | apply clampDelta_le].
    - now rewrite rig_frameStep_unmounted. }
  constructor; [exact Hw' | now apply IH].
Qed.

Lemma canSprint_needs_stamina (keys : Keys) (r : Rig) :
  canSprint keys r = true ->
  run keys = true /\ 5 < stamina r /\ crouch keys = false.
Proof.
  unfold canSprint. intros H.
  apply andb_prop in H as [H H3]. apply andb_prop in H as [H1 H2].
  apply gtb_true in H2. apply negb_true_iff in H3. repeat split; auto; lra.
Qed.

Lemma stamina_simulate_floor (q : Quaternion) (dt : R) (keys : Keys) (r : Rig) :
  0 <= dt <= 0.05 ->
  3.4 < stamina r <= 100 -> 3.4 < stamina (simulate q dt keys r) <= 100.
Proof.
  intros Hdt Hs. rewrite stamina_simulate.
  destruct (canSprint keys r) eqn:C; cbn [andb].
  - apply canSprint_needs_stamina in C as [_ [C _]].
    destruct (isMoving (summed q keys r)).
    + split; [|apply Rmax_lub; lra].
      eapply Rlt_le_trans; [|apply Rmax_r]. lra.
    + split; [apply Rmin_glb_lt; lra | apply Rmin_l].
  - split; [apply Rmin_glb_lt; lra | apply Rmin_l].
Qed.

(** X1: the floor of line 180 is never reached: sprinting needs more than 5
    units and one clamped step drains at most 1.6, so over any session with
    non-negative elapsed times stamina stays above 3.4. *)
Theorem stamina_floor_never_reached (fs : list Frame) :
  Forall (fun f => 0 <= f_delta f) fs ->
  Forall (fun w => 3.4 < stamina (rig w) <= 100) (trace fs initialWorld).
Proof.
  intros Hfs.
  apply (trace_rig_invariant (fun r => 3.4 < stamina r <= 100)).
  - intros q dt keys r. apply stamina_simulate_floor.
  - exact Hfs.
  - cbn. lra.
Qed.

(** *** Speed *)

Lemma targetSpeed_range (keys : Keys) (r : Rig) :
  0 <= targetSpeed keys r <= 16.625.
Proof.
  unfold targetSpeed, sprintFactor, crouchFactor, walkSpeed.
  destruct (crouch keys), (canSprint keys r); lra.
Qed.

(** X3: lines 164-167 as a table: the sprint factor applies exactly when the run
    key is down, stamina exceeds 5 and the crouch key is up; crouching wins
    over running. *)
Theorem targetSpeed_table (keys : Keys) (r : Rig) :
  (targetSpeed keys r = 16.625 <->
     run keys = true /\ 5 < stamina r /\ crouch keys = false)
  /\ (crouch keys = true -> targetSpeed keys r = 4.275)
  /\ (crouch keys = false -> run keys = false -> targetSpeed keys r = 9.5)
  /\ (crouch keys = false -> stamina r <= 5 -> targetSpeed keys r = 9.5).
Proof.
  unfold targetSpeed, sprintFactor, crouchFactor, walkSpeed.
  split; [|split; [|split]].
  - destruct (canSprint keys r) eqn:C.
    + pose proof (canSprint_needs_stamina _ _ C) as [H1 [H2 H3]].
      rewrite H3. split; [auto | intros _; lra].
    + split.
      * destruct (crouch keys); lra.
      * intros [H1 [H2 H3]]. unfold canSprint in C.
        rewrite H1, H3 in C. cbn in C. rewrite andb_true_r in C.
        apply gtb_false in C. lra.
  - intros H. unfold canSprint. rewrite H, andb_false_r. lra.
  - intros H1 H2. unfold canSprint. rewrite H1, H2. cbn. lra.
  - intros H1 H2. unfold canSprint. rewrite H1.
    replace (gtb (stamina r) 5) with false
      by (symmetry; apply gtb_false; lra).
    rewrite andb_false_r. cbn. lra.
Qed.

Lemma damp_weight (rate dt : R) :
  0 <= rate -> 0 <= dt -> 0 <= 1 - exp (- rate * dt) <= 1.
Proof.
  intros Hr Hd. pose proof (exp_pos (- rate * dt)).
  assert (exp (- rate * dt) <= 1).
  { rewrite <- exp_0. destruct (Req_dec (- rate * dt) 0) as [E|E].
    - rewrite E. lra.
    - left. apply exp_increasing. nra. }
  lra.
Qed.

Lemma blend_within_disc (t vx vz wx wz m : R) :
  0 <= t <= 1 ->
  vx * vx + vz * vz <= m * m -> wx * wx + wz * wz <= m * m ->
  ((1 - t) * vx + t * wx) * ((1 - t) * vx + t * wx)
  + ((1 - t) * vz + t * wz) * ((1 - t) * vz + t * wz) <= m * m.
Proof.
  intros Ht Hv Hw.
  assert (D : 2 * (vx * wx + vz * wz) <= 2 * (m * m)).
  { pose proof (Rle_0_sqr (vx - wx)) as E1.
    pose proof (Rle_0_sqr (vz - wz)) as E2.
    unfold Rsqr in E1, E2. nra. }
  assert (A : 0 <= (1 - t) * (1 - t)) by nra.
  assert (B : 0 <= t * t) by nra.
  assert (C : 0 <= (1 - t) * t) by nra.
  replace (((1 - t) * vx + t * wx) * ((1 - t) * vx + t * wx)
           + ((1 - t) * vz + t * wz) * ((1 - t) * vz + t * wz))
    with ((1 - t) * (1 - t) * (vx * vx + vz * vz)
          + (1 - t) * t * (2 * (vx * wx + vz * wz))
          + t * t * (wx * wx + wz * wz)) by ring.
  replace (m * m)
    with ((1 - t) * (1 - t) * (m * m) + (1 - t) * t * (2 * (m * m))
          + t * t * (m * m)) by ring.
  apply Rplus_le_compat; [apply Rplus_le_compat|];
    apply Rmult_le_compat_l; assumption.
Qed.

Lemma moveVector_unit (q : Quaternion) (keys : Keys) (r : Rig) :
  isMoving (summed q keys r) = true ->
  lengthSq (moveVector (steered q keys r)) = 1.
Proof.
  intros Mv. unfold steered, normalizeMove. rewrite Mv.
  cbn [moveVector with_moveVector]. apply lengthSq_normalize.
  unfold isMoving in Mv. apply gtb_true in Mv. lra.
Qed.

Lemma speed_simulate_bound (q : Quaternion) (dt : R) (keys : Keys) (r : Rig) :
  0 <= dt <= 0.05 ->
  x (velocity r) * x (velocity r) + z (velocity r) * z (velocity r)
    <= 16.625 * 16.625 ->
  x (velocity (simulate q dt keys r)) * x (velocity (simulate q dt keys r))
  + z (velocity (simulate q dt keys r)) * z (velocity (simulate q dt keys r))
    <= 16.625 * 16.625.
Proof.
  intros [Hd _] Hv.
  rewrite velocity_x_simulate, velocity_z_simulate,
    velocity_x_damped, velocity_z_damped.
  destruct (isMoving (summed q keys r)) eqn:Mv; unfold MathUtils.damp,
    MathUtils.lerp.
  - pose proof (damp_weight 8 dt ltac:(lra) Hd) as Ht.
    apply blend_within_disc; [| exact Hv |].
    + lra.
    + pose proof (moveVector_unit q keys r Mv) as U. unfold lengthSq in U.
      pose proof (targetSpeed_range keys r) as [S0 S1].
      set (mx := x (moveVector (steered q keys r))) in *.
      set (my := y (moveVector (steered q keys r))) in *.
      set (mz := z (moveVector (steered q keys r))) in *.
      set (s := targetSpeed keys r) in *.
      assert (mx * mx + mz * mz <= 1) by nra.
      assert (s * s <= 16.625 * 16.625) by nra.
      replace (mx * s * (mx * s) + mz * s * (mz * s))
        with (s * s * (mx * mx + mz * mz)) by ring.
      nra.
  - pose proof (damp_weight 5.5 dt ltac:(lra) Hd) as Ht.
    apply blend_within_disc; [| exact Hv |]; lra.
Qed.

(** X2: over any session with non-negative elapsed times the horizontal speed
    never exceeds the sprint speed 9.5 * 1.75 = 16.625: damping blends the
    velocity with a target of at most that length. *)
Theorem speed_never_exceeds_sprint (fs : list Frame) :
  Forall (fun f => 0 <= f_delta f) fs ->
  Forall (fun w => horizontalSpeed (rig w) <= 16.625) (trace fs initialWorld).
Proof.
  intros Hfs.
  assert (H : Forall (fun w =>
                x (velocity (rig w)) * x (velocity (rig w))
                + z (velocity (rig w)) * z (velocity (rig w))
                <= 16.625 * 16.625) (trace fs initialWorld)).
  { apply (trace_rig_invariant
             (fun r => x (velocity r) * x (velocity r)
                       + z (velocity r) * z (velocity r)
                       <= 16.625 * 16.625)).
    - intros q dt keys r. apply speed_simulate_bound.
    - exact Hfs.
    - cbn. lra. }
  eapply Forall_impl; [|exact H].
  intros w Hw. unfold horizontalSpeed.
  rewrite <- (sqrt_square 16.625) by lra.
  apply sqrt_le_1_alt. exact Hw.
Qed.

End SessionInvariants.

(** ** Ground resolution, camera and metrics *)

Section Outputs.

Context {T : Terrain}.

Lemma desiredHeight_simulate (q : Quaternion) (dt : R) (keys : Keys) (r : Rig) :
  desiredHeight keys (simulate q dt keys r)
  = desiredHeight keys (clamped q dt keys r).
Proof.
  unfold desiredHeight, terrainHeightAtPoint, simulate.
  now autorewrite with footprint.
Qed.

Lemma grounded_height (q : Quaternion) (dt : R) (keys : Keys) (r : Rig) :
  isGrounded (simulate q dt keys r) = true ->
  y (position (simulate q dt keys r)) <= desiredHeight keys (simulate q dt keys r)
  /\ (0 <= dt ->
      y (position (clamped q dt keys r)) <= y (position (simulate q dt keys r))).
Proof.
  intros G. rewrite position_y_simulate, G, desiredHeight_simulate, damp_law.
  rewrite isGrounded_simulate in G. apply leb_true in G.
  pose proof (exp_pos (- (18) * dt)) as E. split; [nra|].
  intros Hd. pose proof (damp_weight 18 dt ltac:(lra) Hd). nra.
Qed.

Lemma airborne_height (q : Quaternion) (dt : R) (keys : Keys) (r : Rig) :
  isGrounded (simulate q dt keys r) = false ->
  desiredHeight keys (simulate q dt keys r) < y (position (simulate q dt keys r))
  /\ y (position (simulate q dt keys r)) = y (position (clamped q dt keys r)).
Proof.
  intros G. rewrite position_y_simulate, G, desiredHeight_simulate.
  rewrite isGrounded_simulate in G. apply leb_false in G. split; [lra|reflexivity].
Qed.

(** X4: when the callback has run, [grounded] agrees with where the avatar is:
    a grounded avatar has no vertical velocity, is at or below the eye
    height over the terrain under it and (for a step that is not negative)
    was not pushed down by the resolution; an airborne one is strictly
    above the eye height, at the height integration gave it. *)
Theorem grounded_matches_height (w : World) (delta : R) (keys : Keys) :
  controls w <> None ->
  let r' := rig (useFrame w delta keys) in
  let rc := clamped (quaternion (camera w)) (clampDelta delta) keys (rig w) in
  (isGrounded r' = true ->
     y (velocity r') = 0
     /\ y (position r') <= desiredHeight keys r'
     /\ (0 <= delta -> y (position rc) <= y (position r')))
  /\ (isGrounded r' = false ->
     desiredHeight keys r' < y (position r')
     /\ y (position r') = y (position rc)).
Proof.
  intros Hc. cbv zeta. rewrite rig_useFrame_mounted by exact Hc.
  split; intros G.
  - destruct (grounded_height _ _ _ _ G) as [H1 H2].
    rewrite velocity_y_simulate, G. repeat split; auto.
    intros Hd. apply H2. now apply clampDelta_nonneg.
  - now apply airborne_height.
Qed.

(** X5: when the callback has run, the camera sits at the avatar's position and
    the store holds the horizontal speed (never negative), the height over
    the terrain under the final position and the stamina of the rig; the
    published altitude is at most the eye height (1.05 crouched, 1.72
    standing) exactly when the avatar is grounded. *)
Theorem metrics_mirror_rig (w : World) (delta : R) (keys : Keys) :
  controls w <> None ->
  let w' := useFrame w delta keys in
  let r' := rig w' in
  cam_position (camera w') = position r'
  /\ Store.speed (store w') = horizontalSpeed r'
  /\ 0 <= Store.speed (store w')
  /\ Store.altitude (store w')
     = y (position r') - terrainHeight (x (position r')) (z (position r'))
  /\ Store.stamina (store w') = stamina r'
  /\ (isGrounded r' = true <->
      Store.altitude (store w')
      <= (if crouch keys then crouchHeight else playerHeight)).
Proof.
  intros Hc. cbv zeta.
  assert (A : Store.altitude (store (useFrame w delta keys))
              = y (position (rig (useFrame w delta keys)))
                - terrainHeight (x (position (rig (useFrame w delta keys))))
                                (z (position (rig (useFrame w delta keys))))).
  { unfold useFrame. destruct (controls w); [|contradiction].
    cbn [store rig Store.setMetrics Store.altitude].
    unfold terrainHeightAtPoint, simulate. now autorewrite with footprint. }
  repeat split.
  - unfold useFrame. destruct (controls w); [reflexivity|contradiction].
  - unfold useFrame. destruct (controls w); [reflexivity|contradiction].
  - unfold useFrame. destruct (controls w); [|contradiction].
    cbn [store Store.setMetrics Store.speed]. apply sqrt_pos.
  - exact A.
  - unfold useFrame. destruct (controls w); [reflexivity|contradiction].
  - intros G. rewrite A. rewrite rig_useFrame_mounted in * by exact Hc.
    destruct (grounded_height _ _ _ _ G) as [H _].
    unfold desiredHeight, terrainHeightAtPoint in H.
    destruct (crouch keys); lra.
  - intros H. rewrite A in H. rewrite rig_useFrame_mounted in * by exact Hc.
    destruct (isGrounded (simulate (quaternion (camera w)) (clampDelta delta)
                            keys (rig w))) eqn:G; [reflexivity|].
    destruct (airborne_height _ _ _ _ G) as [H1 _].
    unfold desiredHeight, terrainHeightAtPoint in H1.
    destruct (crouch keys); lra.
Qed.

End Outputs.

(** ** Jumps *)

Section Jumps.

Context {T : Terrain}.

(** X7: a jump from at or above the eye height over the landing spot takes
    off: for a positive elapsed time the frame ends airborne, moving up at
    12.5 less one clamped step of gravity, with the cooldown at 0.35. *)
Theorem jump_takes_off (w : World) (delta : R) (keys : Keys) :
  controls w <> None ->
  0 < delta ->
  let q := quaternion (camera w) in
  let dt := clampDelta delta in
  jumpFires keys (ticked q dt keys (rig w)) = true ->
  desiredHeight keys (clamped q dt keys (rig w))
    <= y (position (resolveSpawn (rig w))) ->
  let r' := rig (useFrame w delta keys) in
  isGrounded r' = false
  /\ y (velocity r') = 12.5 - gravity * dt
  /\ 0 < y (velocity r')
  /\ cooldown r' = 0.35.
Proof.
  intros Hc Hd. cbv zeta. intros J Hy.
  rewrite rig_useFrame_mounted by exact Hc.
  set (q := quaternion (camera w)) in *. set (dt := clampDelta delta) in *.
  assert (Hdt : 0 < dt <= 0.05).
  { unfold dt, clampDelta. split; [apply Rmin_glb_lt; lra | apply Rmin_r]. }
  assert (G : isGrounded (simulate q dt keys (rig w)) = false).
  { rewrite isGrounded_simulate. apply leb_false.
    rewrite position_y_clamped, velocity_y_afterGravity, J.
    unfold gravity. nra. }
  rewrite velocity_y_simulate, G, velocity_y_afterGravity, J,
    cooldown_simulate, J.
  unfold gravity. repeat split; lra.
Qed.

Lemma frameJumps_blocked (f : Frame) (w : World) :
  0 <= f_delta f -> 0.05 < cooldown (rig w) ->
  frameJumps f w = false
  /\ cooldown (rig w) - 0.05 <= cooldown (rig (frameStep f w)).
Proof.
  intros Hd Hcd. unfold frameJumps.
  pose proof (clampDelta_nonneg _ Hd) as D0.
  pose proof (clampDelta_le (f_delta f)) as D1.
  destruct (f_controls f) as [ctl|] eqn:E.
  - assert (J : jumpFires (f_keys f)
                  (ticked (f_look f) (clampDelta (f_delta f)) (f_keys f) (rig w))
                = false).
    { rewrite jumpFires_ticked.
      replace (gtb (cooldown (rig w)) 0) with true
        by (symmetry; apply gtb_true; lra).
      replace (leb (cooldown (rig w) - clampDelta (f_delta f)) 0) with false
        by (symmetry; apply leb_false; lra).
      apply andb_false_r. }
    split; [exact J|].
    rewrite rig_frameStep_mounted by congruence.
    rewrite cooldown_simulate, J, cooldown_ticked.
    replace (gtb (cooldown (rig w)) 0) with true
      by (symmetry; apply gtb_true; lra).
    lra.
  - split; [reflexivity|]. rewrite rig_frameStep_unmounted by exact E. lra.
Qed.

Lemma jumpLog_blocked (fs : list Frame) :
  Forall (fun f => 0 <= f_delta f) fs ->
  forall w : World,
    0.05 * INR (List.length fs) < cooldown (rig w) ->
    Forall (fun b => b = false) (jumpLog fs w).
Proof.
  induction 1 as [|f fs Hf _ IH]; intros w Hw; cbn [jumpLog]; [constructor|].
  cbn [List.length] in Hw. rewrite S_INR in Hw.
  pose proof (pos_INR (List.length fs)) as Hn.
  destruct (frameJumps_blocked f w Hf) as [J C]; [lra|].
  constructor; [exact J|]. apply IH. lra.
Qed.

(** X8: after a frame in which a jump fired, none of the next six frames can
    jump, whatever the keys: the cooldown starts at 0.35 and a frame takes
    at most 0.05 off it. *)
Theorem no_jump_for_six_frames (f0 : Frame) (w0 : World) (fs : list Frame) :
  frameJumps f0 w0 = true ->
  (List.length fs <= 6)%nat ->
  Forall (fun f => 0 <= f_delta f) fs ->
  Forall (fun b => b = false) (jumpLog fs (frameStep f0 w0)).
Proof.
  intros J Hlen Hfs. apply jumpLog_blocked; [exact Hfs|].
  unfold frameJumps in J.
  destruct (f_controls f0) as [ctl|] eqn:E; [|discriminate].
  rewrite rig_frameStep_mounted by congruence.
  rewrite cooldown_simulate, J.
  apply le_INR in Hlen. cbn in Hlen. lra.
Qed.

End Jumps.

(** ** Pausing *)

Section Pausing.

Context {T : Terrain}.

Lemma rig_frameStep_congruence (f : Frame) (w1 w2 : World) :
  rig w1 = rig w2 -> rig (frameStep f w1) = rig (frameStep f w2).
Proof.
  intros H. destruct (f_controls f) as [ctl|] eqn:E.
  - rewrite !rig_frameStep_mounted by congruence. now rewrite H.
  - now rewrite !rig_frameStep_unmounted.
Qed.

(** X9: frames that arrive while the controls are not mounted leave no trace
    in the refs: a session ends with the same rig as the session without
    them, whatever their elapsed times and keys were. *)
Theorem skipped_frames_leave_no_trace (fs : list Frame) (w : World) :
  rig (runFrames fs w) = rig (runFrames (filter mountedFrame fs) w).
Proof.
  unfold runFrames.
  assert (H : forall w1 w2 : World,
             rig w1 = rig w2 ->
             rig (fold_left (fun w f => frameStep f w) fs w1)
             = rig (fold_left (fun w f => frameStep f w)
                              (filter mountedFrame fs) w2)).
  { induction fs as [|f fs IH]; intros w1 w2 H; cbn [fold_left filter];
      [exact H|].
    unfold mountedFrame at 1. destruct (f_controls f) as [ctl|] eqn:E.
    - cbn [fold_left]. apply IH. now apply rig_frameStep_congruence.
    - apply IH. now rewrite rig_frameStep_unmounted. }
  now apply H.
Qed.

End Pausing.

(** ** Steering edge cases *)

Section SteeringEdges.

Context {T : Terrain}.

Lemma moveVector_summed (q : Quaternion) (keys : Keys) (r : Rig) :
  let f := normalize (flatForward q) in
  let s := normalize (cross upVector f) in
  let m0 := mkVector3 0 0 0 in
  let m1 := if forward keys then add m0 f else m0 in
  let m2 := if backward keys then sub m1 f else m1 in
  let m3 := if left keys then sub m2 s else m2 in
  let m4 := if right keys then add m3 s else m3 in
  moveVector (summed q keys r) = m4.
Proof. reflexivity. Qed.

Lemma idle_step (q : Quaternion) (dt : R) (keys : Keys) (r : Rig) :
  isMoving (summed q keys r) = false ->
  x (velocity (simulate q dt keys r)) = x (velocity r) * exp (- (5.5) * dt)
  /\ z (velocity (simulate q dt keys r)) = z (velocity r) * exp (- (5.5) * dt)
  /\ stamina (simulate q dt keys r) = Rmin 100 (stamina r + 20 * dt).
Proof.
  intros Mv.
  rewrite velocity_x_simulate, velocity_z_simulate, velocity_x_damped,
    velocity_z_damped, stamina_simulate, Mv, andb_false_r, !damp_law.
  repeat split; ring.
Qed.

(** X10: opposite keys cancel: with forward and backward in the same state and
    left and right in the same state there is no movement intent, so the
    horizontal velocity decays at rate 5.5 and stamina regenerates, even
    with the run key down. *)
Theorem opposite_keys_cancel (w : World) (delta : R) (keys : Keys) :
  controls w <> None ->
  forward keys = backward keys -> left keys = right keys ->
  let q := quaternion (camera w) in
  let dt := clampDelta delta in
  let r' := rig (useFrame w delta keys) in
  isMoving (summed q keys (rig w)) = false
  /\ x (velocity r') = x (velocity (rig w)) * exp (- (5.5) * dt)
  /\ z (velocity r') = z (velocity (rig w)) * exp (- (5.5) * dt)
  /\ stamina r' = Rmin 100 (stamina (rig w) + 20 * dt).
Proof.
  intros Hc Hfb Hlr. cbv zeta. rewrite rig_useFrame_mounted by exact Hc.
  assert (Mv : isMoving (summed (quaternion (camera w)) keys (rig w)) = false).
  { unfold isMoving. rewrite moveVector_summed. cbv zeta.
    rewrite <- Hfb, <- Hlr. apply gtb_false.
    destruct (forward keys), (left keys); unfold lengthSq, add, sub;
      cbn [x y z];
      match goal with
      | |- ?e <= _ => replace e with 0 by ring
      end; lra. }
  split; [exact Mv | now apply idle_step].
Qed.

Lemma normalize_unit_components (v : Vector3) :
  lengthSq v = 1 ->
  x (normalize v) = x v /\ y (normalize v) = y v /\ z (normalize v) = z v.
Proof.
  intros H. unfold normalize, length. rewrite H, sqrt_1.
  replace (truthy 1) with true by (symmetry; apply truthy_true; lra).
  cbn. repeat split; field.
Qed.

Lemma side_of_front (q : Quaternion) :
  lengthSq (flatForward q) <> 0 ->
  let f := normalize (flatForward q) in
  let s := normalize (cross upVector f) in
  x s = z f /\ y s = 0 /\ z s = - x f /\ lengthSq s = 1.
Proof.
  intros Hq. cbv zeta.
  pose proof (lengthSq_normalize _ Hq) as U.
  pose proof (y_normalize_flatForward q) as Y0.
  set (f := normalize (flatForward q)) in *.
  assert (C : lengthSq (cross upVector f) = 1).
  { rewrite <- U. unfold lengthSq, cross, upVector. cbn [x y z].
    rewrite Y0. ring. }
  destruct (normalize_unit_components _ C) as [Hx [Hy Hz]].
  assert (SU : lengthSq (normalize (cross upVector f)) = 1)
    by (apply lengthSq_normalize; rewrite C; lra).
  rewrite Hx, Hy, Hz. unfold cross at 1 2 3. unfold upVector. cbn [x y z].
  repeat split; try ring. exact SU.
Qed.

(** X12: strafing: for a look direction that is not vertical the side vector is
    [up x front = (front.z, 0, -front.x)], a horizontal unit vector at right
    angles to the front vector.  The right key adds it: from rest, with only
    the right key down, the velocity after the frame is
    [9.5 * (1 - exp (- 8 dt))] times [(front.z, -front.x)]; under the
    default orientation (front = -Z) that points along -X. *)
Theorem right_key_moves_along_up_cross_front (w : World) (delta : R) :
  controls w <> None ->
  lengthSq (flatForward (quaternion (camera w))) <> 0 ->
  x (velocity (rig w)) = 0 -> z (velocity (rig w)) = 0 ->
  let q := quaternion (camera w) in
  let front := normalize (flatForward q) in
  let side := sideVector (lookDirections q (rig w)) in
  let k := 9.5 * (1 - exp (- (8) * clampDelta delta)) in
  let r' := rig (useFrame w delta rightKey) in
  (x side = z front /\ y side = 0 /\ z side = - x front)
  /\ x front * x side + y front * y side + z front * z side = 0
  /\ lengthSq side = 1
  /\ x (velocity r') = k * z front
  /\ z (velocity r') = k * - x front.
Proof.
  intros Hc Hq Vx Vz. cbv zeta. rewrite rig_useFrame_mounted by exact Hc.
  set (q := quaternion (camera w)) in *.
  destruct (side_of_front q Hq) as [Sx [Sy [Sz SU]]]. cbv zeta in *.
  set (f := normalize (flatForward q)) in *.
  set (s := normalize (cross upVector f)) in *.
  assert (Es : sideVector (lookDirections q (rig w)) = s) by reflexivity.
  rewrite Es.
  assert (M : moveVector (summed q rightKey (rig w)) = add (mkVector3 0 0 0) s)
    by reflexivity.
  assert (L : lengthSq (moveVector (summed q rightKey (rig w))) = 1).
  { rewrite M, <- SU. unfold lengthSq, add. cbn [x y z]. ring. }
  assert (Mv : isMoving (summed q rightKey (rig w)) = true).
  { unfold isMoving. rewrite L. apply gtb_true. lra. }
  assert (Ms : x (moveVector (steered q rightKey (rig w))) = x s
               /\ z (moveVector (steered q rightKey (rig w))) = z s).
  { unfold steered, normalizeMove. rewrite Mv.
    cbn [moveVector with_moveVector].
    destruct (normalize_unit_components _ L) as [Hx [_ Hz]].
    rewrite Hx, Hz, M. unfold add. cbn [x y z]. split; ring. }
  destruct Ms as [Mx Mz].
  assert (Ts : targetSpeed rightKey (rig w) = 9.5).
  { unfold targetSpeed, sprintFactor, canSprint, crouchFactor, walkSpeed.
    cbn. lra. }
  rewrite velocity_x_simulate, velocity_z_simulate, velocity_x_damped,
    velocity_z_damped, Mv, Mx, Mz, Ts, Vx, Vz, !damp_law.
  repeat split; try assumption.
  - rewrite Sx, Sy, Sz. ring.
  - rewrite Sx. ring.
  - rewrite Sz. ring.
Qed.

End SteeringEdges.

(** * The store and the HUD *)

Section Display.

Context {T : Terrain}.

(** The two setters of the store write disjoint fields: they commute, the
    later of two calls to the same setter wins, [setMetrics] keeps [locked]
    and [setLocked] keeps the three metrics. *)
Theorem store_setters_compose (s : Store.PlayerState)
    (speed altitude stamina speed' altitude' stamina' : R) (l l' : bool) :
  Store.setMetrics speed altitude stamina (Store.setLocked l s)
  = Store.setLocked l (Store.setMetrics speed altitude stamina s)
  /\ Store.setMetrics speed altitude stamina
       (Store.setMetrics speed' altitude' stamina' s)
     = Store.setMetrics speed altitude stamina s
  /\ Store.setLocked l (Store.setLocked l' s) = Store.setLocked l s
  /\ Store.locked (Store.setMetrics speed altitude stamina s) = Store.locked s
  /\ Store.speed (Store.setLocked l s) = Store.speed s
  /\ Store.altitude (Store.setLocked l s) = Store.altitude s
  /\ Store.stamina (Store.setLocked l s) = Store.stamina s.
Proof. repeat split. Qed.

Lemma staminaBarWidth_range (s : Store.PlayerState) :
  0 <= staminaBarWidth s <= 100.
Proof.
  unfold staminaBarWidth. split; [apply Rmax_l|].
  apply Rmax_lub; [lra | apply Rmin_r].
Qed.

Lemma store_stamina_frameStep (f : Frame) (w : World) :
  0 <= f_delta f ->
  Store.stamina (store w) = stamina (rig w) /\ 0 <= stamina (rig w) <= 100 ->
  Store.stamina (store (frameStep f w)) = stamina (rig (frameStep f w))
  /\ 0 <= stamina (rig (frameStep f w)) <= 100.
Proof.
  intros Hd [Hs Hr]. split; [|now apply stamina_frameStep_range].
  unfold frameStep, useFrame, arrive. cbn [controls rig camera store].
  destruct (f_controls f); cbn; [reflexivity | exact Hs].
Qed.

(** X13: the stamina bar: its width always lies in [0, 100] percent, and over a
    session with non-negative elapsed times the clamp of line 464 never
    bites: the width is the stamina in the store, which is the stamina of
    the rig. *)
Theorem stamina_bar_shows_stamina (fs : list Frame) :
  Forall (fun f => 0 <= f_delta f) fs ->
  (forall s : Store.PlayerState, 0 <= staminaBarWidth s <= 100)
  /\ Forall (fun w => staminaBarWidth (store w) = stamina (rig w))
            (trace fs initialWorld).
Proof.
  intros Hfs. split; [exact staminaBarWidth_range|].
  assert (H : forall w,
             Store.stamina (store w) = stamina (rig w)
             /\ 0 <= stamina (rig w) <= 100 ->
             Forall (fun w' => Store.stamina (store w') = stamina (rig w')
                               /\ 0 <= stamina (rig w') <= 100)
                    (trace fs w)).
  { induction Hfs as [|f fs Hf _ IH]; intros w Hw; cbn [trace]; constructor.
    - now apply store_stamina_frameStep.
    - apply IH. now apply store_stamina_frameStep. }
  eapply Forall_impl; [|apply (H initialWorld); cbn; lra].
  intros w [Hs Hr]. unfold staminaBarWidth. rewrite Hs.
  rewrite Rmin_left by lra. apply Rmax_right. lra.
Qed.

End Display.

(** * The scenery *)

Section SceneryProperties.

Context {T : Terrain}.

Lemma setZ_length (i : nat) (h : R) (a : BufferAttribute.t) :
  List.length (BufferAttribute.setZ i h a) = List.length a.
Proof.
  revert i. induction a as [|v a IH]; intros [|i]; cbn; auto.
Qed.

Lemma setZ_nth_same (i : nat) (h : R) (a : BufferAttribute.t) :
  (i < List.length a)%nat ->
  nth i (BufferAttribute.setZ i h a) zero = Three.setZ h (nth i a zero).
Proof.
  revert i. induction a as [|v a IH]; intros [|i] H; cbn in *;
    try lia; [reflexivity|].
  apply IH. lia.
Qed.

Lemma setZ_nth_other (i j : nat) (h : R) (a : BufferAttribute.t) :
  i <> j -> nth j (BufferAttribute.setZ i h a) zero = nth j a zero.
Proof.
  revert i j. induction a as [|v a IH]; intros [|i] [|j] H; cbn;
    try reflexivity; try contradiction.
  apply IH. congruence.
Qed.

Lemma displaceLoop_length (n i : nat) (a : BufferAttribute.t) :
  List.length (displaceLoop n i a) = List.length a.
Proof.
  revert i a. induction n as [|n IH]; intros i a; cbn [displaceLoop];
    [reflexivity|].
  cbv zeta. rewrite IH. apply setZ_length.
Qed.

Lemma displaceLoop_nth (n : nat) :
  forall (i : nat) (a : BufferAttribute.t) (j : nat),
    (i + n <= List.length a)%nat ->
    nth j (displaceLoop n i a) zero
    = if (Nat.leb i j && Nat.ltb j (i + n))%bool
      then displacedVertex (nth j a zero) else nth j a zero.
Proof.
  induction n as [|n IH]; intros i a j H; cbn [displaceLoop].
  - destruct (Nat.leb_spec i j), (Nat.ltb_spec j (i + 0)); cbn;
      try reflexivity; lia.
  - cbv zeta. rewrite IH by (rewrite setZ_length; lia).
    destruct (PeanoNat.Nat.eq_dec i j) as [<-|Hij].
    + rewrite setZ_nth_same by lia.
      destruct (Nat.leb_spec (S i) i), (Nat.leb_spec i i),
        (Nat.ltb_spec i (i + S n)); cbn [andb]; try lia.
      reflexivity.
    + rewrite setZ_nth_other by exact Hij.
      destruct (Nat.leb_spec (S i) j), (Nat.leb_spec i j),
        (Nat.ltb_spec j (S i + n)), (Nat.ltb_spec j (i + S n));
        cbn [andb]; try reflexivity; lia.
Qed.

(** X14: the vertex loop of [Terrain] keeps the number of vertices and their
    [x] and [y], and sets every [z] to the terrain height at [(x, -y)]: it
    is the map of that update over the attribute, and running it a second
    time changes nothing. *)
Theorem displaceVertices_is_map (positions : BufferAttribute.t) :
  BufferAttribute.count (displaceVertices positions)
  = BufferAttribute.count positions
  /\ displaceVertices positions = map displacedVertex positions
  /\ displaceVertices (displaceVertices positions) = displaceVertices positions.
Proof.
  assert (M : forall a, displaceVertices a = map displacedVertex a).
  { intros a. unfold displaceVertices, BufferAttribute.count.
    apply nth_ext with (d := zero) (d' := displacedVertex zero).
    - now rewrite displaceLoop_length, length_map.
    - intros j Hj. rewrite displaceLoop_length in Hj.
      rewrite displaceLoop_nth by lia.
      rewrite (map_nth displacedVertex a zero j).
      destruct (Nat.ltb_spec j (0 + List.length a)); [reflexivity | lia]. }
  split; [|split].
  - unfold BufferAttribute.count. rewrite M. apply length_map.
  - apply M.
  - rewrite !M, map_map. apply map_ext. intros v. reflexivity.
Qed.

End SceneryProperties.

(** ** Structures, landing pad and ridge *)

Section Props.

Context {T : Terrain}.
Variable random : nat -> R.
Hypothesis random_range : forall k : nat, 0 <= random k < 1.

Lemma circle_point (angle radius : R) :
  cos angle * radius * (cos angle * radius)
  + sin angle * radius * (sin angle * radius) = radius * radius.
Proof.
  pose proof (sin2_cos2 angle) as H. unfold Rsqr in H.
  replace (cos angle * radius * (cos angle * radius)
           + sin angle * radius * (sin angle * radius))
    with ((sin angle * sin angle + cos angle * cos angle) * (radius * radius))
    by ring.
  rewrite H. ring.
Qed.

Lemma INR_mod_bound (i n : nat) :
  (0 < n)%nat -> 0 <= INR (i mod n) <= INR n - 1.
Proof.
  intros Hn. split; [apply pos_INR|].
  assert (H : (S (i mod n) <= n)%nat).
  { apply PeanoNat.Nat.mod_upper_bound. lia. }
  apply le_INR in H. rewrite S_INR in H. lra.
Qed.

(** Far enough from the origin means clear of the landing pad, whose centre
    is at (8, -12). *)
Lemma clear_of_pad (px pz : R) :
  36 * 36 <= px * px + pz * pz ->
  21 * 21 < (px - 8) * (px - 8) + (pz + 12) * (pz + 12).
Proof.
  intros H. set (d := px * px + pz * pz) in *.
  set (u := 16 * px - 24 * pz).
  assert (C : u * u <= 832 * d).
  { pose proof (Rle_0_sqr (24 * px + 16 * pz)) as S. unfold Rsqr in S.
    unfold u, d. nra. }
  assert (P : 832 * d < (d - 233) * (d - 233)).
  { assert (0 <= (d - 1296) * (d - 2)) by (apply Rmult_le_pos; lra). nra. }
  replace ((px - 8) * (px - 8) + (pz + 12) * (pz + 12)) with (d + 208 - u)
    by (unfold d, u; ring).
  destruct (Rlt_le_dec u (d - 233)) as [L|L]; [lra|].
  exfalso. assert (0 <= d - 233) by lra.
  assert ((d - 233) * (d - 233) <= u * u)
    by (apply Rmult_le_compat; lra).
  lra.
Qed.

Lemma structureNode_layout (i k : nat) :
  let n := structureNode random i k in
  let '(px, py, pz) := s_position n in
  let '(sx, sy, sz) := s_size n in
  36 * 36 <= px * px + pz * pz < 64 * 64
  /\ py - sy / 2 = terrainHeight px pz
  /\ 6 <= sy < 18
  /\ 4 <= sx < 5.8 /\ 4 <= sz < 5.8
  /\ 21 * 21 < (px - 8) * (px - 8) + (pz + 12) * (pz + 12).
Proof.
  cbv zeta. unfold structureNode. cbn [s_position s_size].
  set (angle := INR i / 18 * PI * 2 + sin (INR i) * 0.35).
  set (radius := 36 + INR (i mod 5) * 6 + random k * 4).
  pose proof (INR_mod_bound i 5 ltac:(lia)) as M5.
  pose proof (INR_mod_bound i 4 ltac:(lia)) as M4.
  cbn [INR] in M5, M4.
  pose proof (random_range k). pose proof (random_range (k + 1)).
  pose proof (random_range (k + 2)). pose proof (random_range (k + 3)).
  assert (Hr : 36 <= radius < 64) by (unfold radius; lra).
  assert (D : 36 * 36 <= cos angle * radius * (cos angle * radius)
                         + sin angle * radius * (sin angle * radius)
                         < 64 * 64).
  { rewrite circle_point. nra. }
  split; [exact D|]. split; [lra|]. split; [lra|].
  split; [lra|]. split; [lra|]. apply clear_of_pad. lra.
Qed.

Lemma structuresLoop_spec (n : nat) :
  forall (i k : nat) (nodes : list StructureNode),
    structuresLoop random n i k nodes
    = nodes ++ map (fun j => structureNode random (i + j) (k + 5 * j))
                   (seq 0 n).
Proof.
  induction n as [|n IH]; intros i k nodes; cbn [structuresLoop seq map].
  - now rewrite app_nil_r.
  - rewrite IH, <- app_assoc. cbn [app]. f_equal. f_equal.
    + f_equal; lia.
    + rewrite <- seq_shift, map_map. apply map_ext. intros j. f_equal; lia.
Qed.

(** X15: [Structures] for any random generator with values in [0, 1): there are
    18 boxes, the [i]-th built from the five draws [5 i .. 5 i + 4]; each
    box stands between 36 and 64 units from the origin, rests with its base
    on the terrain under its centre, is between 6 and 18 high and between 4
    and 5.8 wide and deep, and its centre is more than 21 units from the
    centre of the landing pad, whose radius is 12. *)
Theorem structures_layout :
  List.length (structures random) = 18%nat
  /\ structures random
     = map (fun i => structureNode random i (5 * i)) (seq 0 18)
  /\ Forall (fun n =>
       let '(px, py, pz) := s_position n in
       let '(sx, sy, sz) := s_size n in
       36 * 36 <= px * px + pz * pz < 64 * 64
       /\ py - sy / 2 = terrainHeight px pz
       /\ 6 <= sy < 18
       /\ 4 <= sx < 5.8 /\ 4 <= sz < 5.8
       /\ 21 * 21 < (px - 8) * (px - 8) + (pz + 12) * (pz + 12))
     (structures random).
Proof.
  assert (E : structures random
              = map (fun i => structureNode random i (5 * i)) (seq 0 18)).
  { unfold structures. rewrite structuresLoop_spec. cbn [app].
    apply map_ext. intros j. reflexivity. }
  split; [|split; [exact E|]].
  - rewrite E, length_map. apply length_seq.
  - rewrite E. apply Forall_map. apply Forall_forall. intros i _.
    apply (structureNode_layout i (5 * i)).
Qed.

Lemma ridgeLoop_spec (n : nat) :
  forall (i : nat) (nodes : list (R * R * R)),
    ridgeLoop n i nodes
    = nodes ++ map (fun j => ridgePoint (i + j)) (seq 0 n).
Proof.
  induction n as [|n IH]; intros i nodes; cbn [ridgeLoop seq map].
  - now rewrite app_nil_r.
  - rewrite IH, <- app_assoc. cbn [app]. f_equal. f_equal.
    + f_equal. lia.
    + rewrite <- seq_shift, map_map. apply map_ext. intros j. f_equal. lia.
Qed.

(** X16: [GlowingRidge]: 42 points, each floating 0.4 above the terrain at a
    distance between 48 and 72 from the origin; the spheres drawn there have
    a radius between 0.53 and 0.77, and the two emissive colours alternate
    from one point to the next. *)
Theorem ridge_layout :
  List.length ridgePoints = 42%nat
  /\ ridgePoints = map ridgePoint (seq 0 42)
  /\ Forall (fun p =>
       let '(px, py, pz) := p in
       48 * 48 <= px * px + pz * pz <= 72 * 72
       /\ py = terrainHeight px pz + 0.4)
     ridgePoints
  /\ (forall idx : nat,
        0.53 <= ridgeSphereRadius idx <= 0.77
        /\ ridgeEmissive (S idx) <> ridgeEmissive idx).
Proof.
  assert (E : ridgePoints = map ridgePoint (seq 0 42)).
  { unfold ridgePoints. rewrite ridgeLoop_spec. reflexivity. }
  split; [|split; [exact E|split]].
  - rewrite E, length_map. apply length_seq.
  - rewrite E. apply Forall_map. apply Forall_forall. intros i _.
    unfold ridgePoint. cbv zeta.
    set (angle := INR i / 42 * PI * 2).
    set (radius := 60 + sin (INR i * 0.6) * 12).
    pose proof (SIN_bound (INR i * 0.6)) as [S1 S2].
    assert (Hr : 48 <= radius <= 72) by (unfold radius; lra).
    rewrite circle_point. split; [nra | reflexivity].
  - intros idx. split.
    + unfold ridgeSphereRadius. pose proof (SIN_bound (INR idx)) as [S1 S2]. lra.
    + unfold ridgeEmissive.
      assert (H : (S idx mod 2 = 0 /\ idx mod 2 = 1
                   \/ S idx mod 2 = 1 /\ idx mod 2 = 0)%nat).
      { pose proof (PeanoNat.Nat.mod_upper_bound idx 2 ltac:(lia)).
        pose proof (PeanoNat.Nat.mod_upper_bound (S idx) 2 ltac:(lia)).
        pose proof (PeanoNat.Nat.div_mod_eq idx 2).
        pose proof (PeanoNat.Nat.div_mod_eq (S idx) 2). lia. }
      destruct H as [[-> ->]|[-> ->]]; cbn; discriminate.
Qed.

End Props.

(** ** The further properties at concrete inputs *)

Section FlatExamples.

Local Existing Instance flatTerrain.

Lemma stamina_floor_never_reached_witness :
  Forall (fun w => 3.4 < stamina (rig w) <= 100)
         (trace coolingSession initialWorld).
Proof.
  exact (stamina_floor_never_reached coolingSession coolingSession_deltas).
Defined.

Lemma speed_never_exceeds_sprint_witness :
  Forall (fun w => horizontalSpeed (rig w) <= 16.625)
         (trace coolingSession initialWorld).
Proof.
  exact (speed_never_exceeds_sprint coolingSession coolingSession_deltas).
Defined.

Lemma mountedWorld_grounds :
  isGrounded (rig (useFrame mountedWorld 0.016 noKeys)) = true.
Proof.
  rewrite rig_useFrame_mounted by exact mountedWorld_mounted.
  cbn [rig camera quaternion mountedWorld initialCamera].
  rewrite isGrounded_simulate, desiredHeight_flat_standing by reflexivity.
  apply leb_true.
  rewrite position_y_clamped, velocity_y_afterGravity, jumpFires_ticked.
  rewrite resolveSpawn_initialRig, clampDelta_small by lra.
  cbn. unfold gravity. lra.
Qed.

Lemma grounded_matches_height_witness :
  y (velocity (rig (useFrame mountedWorld 0.016 noKeys))) = 0
  /\ y (position (rig (useFrame mountedWorld 0.016 noKeys)))
     <= desiredHeight noKeys (rig (useFrame mountedWorld 0.016 noKeys)).
Proof.
  destruct (proj1 (grounded_matches_height mountedWorld 0.016 noKeys
                     mountedWorld_mounted) mountedWorld_grounds)
    as [H1 [H2 _]].
  split; [exact H1 | exact H2].
Defined.

Lemma metrics_mirror_rig_witness :
  cam_position (camera (useFrame mountedWorld 0.016 noKeys))
  = position (rig (useFrame mountedWorld 0.016 noKeys)).
Proof.
  exact (proj1 (metrics_mirror_rig mountedWorld 0.016 noKeys
                  mountedWorld_mounted)).
Defined.

Lemma standingWorld_jump_fires :
  jumpFires jumpKey
    (ticked (quaternion (camera standingWorld)) (clampDelta 0.016) jumpKey
            (rig standingWorld)) = true.
Proof.
  rewrite jumpFires_ticked. cbn [jump jumpKey isGrounded cooldown rig
                                 standingWorld andb].
  replace (gtb 0 0) with false by (symmetry; apply gtb_false; lra).
  apply leb_true. lra.
Qed.

Lemma standingWorld_at_eye_height :
  desiredHeight jumpKey
    (clamped (quaternion (camera standingWorld)) (clampDelta 0.016) jumpKey
             (rig standingWorld))
  <= y (position (resolveSpawn (rig standingWorld))).
Proof.
  rewrite desiredHeight_flat_standing by reflexivity.
  rewrite resolveSpawn_away_from_origin
    by (apply lengthSq_z_nonzero; cbn; lra).
  cbn. lra.
Qed.

Lemma jump_takes_off_witness :
  isGrounded (rig (useFrame standingWorld 0.016 jumpKey)) = false.
Proof.
  assert (C : controls standingWorld <> None) by (cbn; discriminate).
  assert (D : 0 < 0.016) by lra.
  exact (proj1 (jump_takes_off standingWorld 0.016 jumpKey C D
                  standingWorld_jump_fires standingWorld_at_eye_height)).
Defined.

Lemma no_jump_for_six_frames_witness :
  Forall (fun b => b = false)
         (jumpLog (repeat (jumpFrame 0.05) 6)
                  (frameStep (jumpFrame 0.016) settledWorld)).
Proof.
  assert (L : (List.length (repeat (jumpFrame 0.05) 6) <= 6)%nat)
    by (cbn; lia).
  assert (F : Forall (fun f => 0 <= f_delta f) (repeat (jumpFrame 0.05) 6))
    by (cbn [repeat]; repeat constructor; cbn; lra).
  exact (no_jump_for_six_frames (jumpFrame 0.016) settledWorld
           (repeat (jumpFrame 0.05) 6) settled_jump_fires L F).
Defined.

Lemma opposite_keys_cancel_witness :
  isMoving (summed (quaternion (camera mountedWorld)) bothWaysKeys
                   (rig mountedWorld)) = false.
Proof.
  exact (proj1 (opposite_keys_cancel mountedWorld 0.016 bothWaysKeys
                  mountedWorld_mounted eq_refl eq_refl)).
Defined.

Lemma right_key_moves_along_up_cross_front_witness :
  x (velocity (rig (useFrame mountedWorld 0.016 rightKey)))
  = 9.5 * (1 - exp (- (8) * clampDelta 0.016))
    * z (normalize (flatForward identity)).
Proof.
  destruct (right_key_moves_along_up_cross_front mountedWorld 0.016
              mountedWorld_mounted flatForward_identity eq_refl eq_refl)
    as [_ [_ [_ [H _]]]].
  exact H.
Defined.

Lemma stamina_bar_shows_stamina_witness :
  Forall (fun w => staminaBarWidth (store w) = stamina (rig w))
         (trace coolingSession initialWorld).
Proof.
  exact (proj2 (stamina_bar_shows_stamina coolingSession coolingSession_deltas)).
Defined.

Lemma halfRandom_range : forall k : nat, 0 <= halfRandom k < 1.
Proof. intros k. unfold halfRandom. lra. Qed.

Lemma structures_layout_witness :
  List.length (structures halfRandom) = 18%nat.
Proof. exact (proj1 (structures_layout halfRandom halfRandom_range)). Defined.

End FlatExamples.
